(** * Analytics service of pytrader: indicator engine and signal strategy

    Shallow embedding of [src/services/analytics/src/indicators.py],
    [signals.py], [models.py] and the two routers.  Python floats are
    modelled as exact rationals [Q] (and [R] where a square root is taken);
    pandas' NaN is modelled as [None] in a series of type [list (option Q)].
    Timestamps are integers [Z]; [int(row["timestamp"])] reads them back
    exactly (epoch milliseconds are far below 2^53).

    The indicator code delegates to the [ta] library and to pandas; the
    functions of those libraries used here are embedded as they are written
    there:
    - [EMAIndicator(close, window).ema_indicator()] is
      [close.ewm(span=window, min_periods=window, adjust=False).mean()];
    - [RSIIndicator(close, window).rsi()] takes [diff = close.diff(1)],
      [up = diff.where(diff > 0, 0.0)], [down = -diff.where(diff < 0, 0.0)],
      smooths both with [ewm(alpha=1/window, min_periods=window, adjust=False)]
      and returns [np.where(emadn == 0, 100, 100 - 100/(1 + emaup/emadn))];
    - [BollingerBands(close, window, window_dev)] uses
      [close.rolling(window, min_periods=window).mean()] and
      [.std(ddof=0)], with bands [mavg +/- window_dev * mstd]. *)

From Stdlib Require Import QArith Qminmax List Ascii String ZArith Lia Lqa.
From Stdlib Require Import Reals Qreals Lra Sorted Permutation.
Import ListNotations.
Open Scope Q_scope.

(** ** Data model ([models.py]) *)

Record OHLCVCandle := mkCandle {
  symbol : string;
  interval : string;
  timestamp : Z;
  open : Q;
  high : Q;
  low : Q;
  close : Q;
  volume : Q
}.

(** [IndicatorName] is a [Literal] of strings. *)
Definition IndicatorName_values : list string :=
  ["ema_20"; "ema_50"; "ema_200"; "rsi_14"; "macd"; "bollinger_bands";
   "volume_sma"]%string.

Inductive SignalAction := buy | sell | hold.

Record Signal := mkSignal {
  sig_symbol : string;
  sig_timestamp : Z;
  action : SignalAction;
  confidence : Q;
  price : Q;
  strategy_id : string;
  metadata : list (string * Q)
}.

(** Python exceptions raised by the core.  pydantic's [ValidationError]
    is a subclass of [ValueError]. *)
Inductive exn :=
| ValueError (msg : string)
| ValidationError (msg : string).

Inductive result (A : Type) :=
| Ok (a : A)
| Err (e : exn).
Arguments Ok {A} a.
Arguments Err {A} e.

(** ** pandas helpers *)

(** [df.sort_values("timestamp")]: a sort by timestamp (insertion sort).
    pandas' default quicksort is not stable, so rows with equal timestamps
    may come out in another order there; on distinct timestamps every sort
    agrees, and the statements below that depend on the order of the input
    rows assume distinct timestamps. *)
Fixpoint insert_by_timestamp (c : OHLCVCandle) (l : list OHLCVCandle)
  : list OHLCVCandle :=
  match l with
  | [] => [c]
  | c' :: l' =>
      if Z.leb (timestamp c) (timestamp c') then c :: l
      else c' :: insert_by_timestamp c l'
  end.

Fixpoint sort_values_timestamp (l : list OHLCVCandle) : list OHLCVCandle :=
  match l with
  | [] => []
  | c :: l' => insert_by_timestamp c (sort_values_timestamp l')
  end.

(** [candles_to_dataframe]: the frame is the list of its rows.  On [[]]
    the code builds [pd.DataFrame()], which has no columns; no caller
    passes it to an indicator ([calculate_indicators] returns [[]] first,
    the strategy returns below 50 candles), and the statements about
    indicator values below are about nonempty frames. *)
Definition candles_to_dataframe (candles : list OHLCVCandle)
  : list OHLCVCandle :=
  match candles with
  | [] => []
  | _ => sort_values_timestamp candles
  end.

(** [Series.ewm(alpha=alpha, adjust=False).mean()] without NaN input:
    [y0 = x0], [y_t = (1-alpha) * y_(t-1) + alpha * x_t]. *)
Fixpoint ewm_run (alpha prev : Q) (xs : list Q) : list Q :=
  match xs with
  | [] => []
  | x :: xs' =>
      let y := (1 - alpha) * prev + alpha * x in
      y :: ewm_run alpha y xs'
  end.

Definition ewm_noadjust (alpha : Q) (xs : list Q) : list Q :=
  match xs with
  | [] => []
  | x :: xs' => x :: ewm_run alpha x xs'
  end.

(** [min_periods]: the value at position [k] (0-based) is NaN while fewer
    than [m] observations have been seen. *)
Fixpoint mask_min_periods (k m : nat) (ys : list Q) : list (option Q) :=
  match ys with
  | [] => []
  | y :: ys' =>
      (if Nat.ltb (S k) m then None else Some y)
        :: mask_min_periods (S k) m ys'
  end.

Definition ewm_mean (alpha : Q) (min_periods : nat) (xs : list Q)
  : list (option Q) :=
  mask_min_periods 0 min_periods (ewm_noadjust alpha xs).

(** Python's [<] on floats. *)
Definition Qlt_bool (x y : Q) : bool := negb (Qle_bool y x).

(** ** ta: EMA, RSI, Bollinger Bands *)

Definition Q_of_nat (n : nat) : Q := inject_Z (Z.of_nat n).

(** [ta.utils._ema(series, periods)] with [span = periods]. *)
Definition ema_alpha (period : nat) : Q := 2 / (Q_of_nat period + 1).

Definition ta_ema (closes : list Q) (period : nat) : list (option Q) :=
  ewm_mean (ema_alpha period) period closes.

(** [calculate_ema(df, period)].  The code only calls it with periods 20,
    50 and 200; pandas rejects [span = 0], so the statements below take
    [period >= 1]. *)
Definition calculate_ema (df : list OHLCVCandle) (period : nat)
  : list (option Q) :=
  ta_ema (map close df) period.

(** Element-wise combination of two aligned series. *)
Fixpoint zip_with {A B C : Type} (f : A -> B -> C) (xs : list A) (ys : list B)
  : list C :=
  match xs, ys with
  | x :: xs', y :: ys' => f x y :: zip_with f xs' ys'
  | _, _ => []
  end.

(** [Series.diff(1)]: NaN at position 0. *)
Fixpoint diff_run (prev : Q) (xs : list Q) : list (option Q) :=
  match xs with
  | [] => []
  | x :: xs' => Some (x - prev) :: diff_run x xs'
  end.

Definition series_diff (xs : list Q) : list (option Q) :=
  match xs with
  | [] => []
  | x :: xs' => None :: diff_run x xs'
  end.

(** [diff.where(diff > 0, 0.0)]: NaN fails the test and becomes 0.0. *)
Definition up_direction (d : option Q) : Q :=
  match d with
  | Some v => if Qlt_bool 0 v then v else 0
  | None => 0
  end.

(** [-diff.where(diff < 0, 0.0)] *)
Definition down_direction (d : option Q) : Q :=
  match d with
  | Some v => if Qlt_bool v 0 then - v else - 0
  | None => - 0
  end.

(** [np.where(emadn == 0, 100, 100 - 100 / (1 + emaup / emadn))]: NaN
    compares unequal to 0 and propagates through the arithmetic. *)
Definition rsi_value (emaup emadn : option Q) : option Q :=
  match emadn with
  | Some dn =>
      if Qeq_bool dn 0 then Some 100
      else match emaup with
           | Some up => Some (100 - 100 / (1 + up / dn))
           | None => None
           end
  | None => None
  end.

(** [emaup] and [emadn]: the smoothed average gain and average loss. *)
Definition ta_rsi_emaup (closes : list Q) (window : nat) : list (option Q) :=
  ewm_mean (1 / Q_of_nat window) window (map up_direction (series_diff closes)).

Definition ta_rsi_emadn (closes : list Q) (window : nat) : list (option Q) :=
  ewm_mean (1 / Q_of_nat window) window (map down_direction (series_diff closes)).

Definition ta_rsi (closes : list Q) (window : nat) : list (option Q) :=
  zip_with rsi_value (ta_rsi_emaup closes window) (ta_rsi_emadn closes window).

(** [calculate_rsi(df, period)].  The code only calls it with period 14;
    [ta] divides by the window ([alpha = 1/window]), which fails at 0, so
    the statements below take [period >= 1]. *)
Definition calculate_rsi (df : list OHLCVCandle) (period : nat)
  : list (option Q) :=
  ta_rsi (map close df) period.

(** Rolling windows: [Series.rolling(w, min_periods=w).f()]. *)
Definition sumQ (xs : list Q) : Q := fold_right Qplus 0 xs.

Definition meanQ (xs : list Q) : Q := sumQ xs / Q_of_nat (List.length xs).

(** Population variance ([ddof=0]). *)
Definition var_pop (xs : list Q) : Q :=
  let m := meanQ xs in
  sumQ (map (fun x => (x - m) * (x - m)) xs) / Q_of_nat (List.length xs).

Definition window_at (w i : nat) (xs : list Q) : list Q :=
  firstn w (skipn (S i - w) xs).

Definition rolling {A : Type} (w : nat) (f : list Q -> A) (xs : list Q)
  : list (option A) :=
  map (fun i => if Nat.ltb (S i) w then None else Some (f (window_at w i xs)))
    (seq 0 (List.length xs)).

(** [rolling(...).std(ddof=0)]: the square root of the population
    variance. *)
Definition rolling_std (w : nat) (xs : list Q) : list (option R) :=
  rolling w (fun win => sqrt (Q2R (var_pop win))) xs.

Definition rolling_mean_R (w : nat) (xs : list Q) : list (option R) :=
  rolling w (fun win => Q2R (meanQ win)) xs.

Definition opt_lift2 (f : R -> R -> R) (a b : option R) : option R :=
  match a, b with
  | Some x, Some y => Some (f x y)
  | _, _ => None
  end.

Record BollingerBands := mkBB {
  bb_upper : list (option R);
  bb_middle : list (option R);
  bb_lower : list (option R)
}.

(** [calculate_bollinger_bands(df, period=20, std_dev=2)] *)
Definition calculate_bollinger_bands_with (df : list OHLCVCandle)
  (period : nat) (std_dev : Z) : BollingerBands :=
  let closes := map close df in
  let mavg := rolling_mean_R period closes in
  let mstd := rolling_std period closes in
  {| bb_upper := zip_with (opt_lift2 (fun m s => m + IZR std_dev * s)%R) mavg mstd;
     bb_middle := mavg;
     bb_lower := zip_with (opt_lift2 (fun m s => m - IZR std_dev * s)%R) mavg mstd |}.

Definition calculate_bollinger_bands (df : list OHLCVCandle) : BollingerBands :=
  calculate_bollinger_bands_with df 20 2.

(** [calculate_volume_sma(df, period=20)] *)
Definition calculate_volume_sma (df : list OHLCVCandle) : list (option R) :=
  rolling_mean_R 20 (map volume df).

(** ** [calculate_indicators] *)

(** Values stored in a result dict. *)
Inductive pyval :=
| VInt (z : Z)
| VFloat (r : R)
| VNone.

(** A Python dict with insertion-ordered keys. *)
Definition dict := list (string * pyval).

(** [d[k] = v]: updates in place, or appends a new key. *)
Fixpoint dict_set (k : string) (v : pyval) (d : dict) : dict :=
  match d with
  | [] => [(k, v)]
  | (k', v') :: d' =>
      if String.eqb k k' then (k, v) :: d' else (k', v') :: dict_set k v d'
  end.

(** [d.get(k)] on a result dict. *)
Fixpoint dict_get (k : string) (d : dict) : option pyval :=
  match d with
  | [] => None
  | (k', v) :: d' => if String.eqb k k' then Some v else dict_get k d'
  end.

(** [float(val) if not pd.isna(val) else None] *)
Definition to_pyval (v : option R) : pyval :=
  match v with
  | Some r => VFloat r
  | None => VNone
  end.

Definition Qseries_to_R (s : list (option Q)) : list (option R) :=
  map (option_map Q2R) s.

(** [for i, val in enumerate(values): results[i][key] = ...] *)
Fixpoint set_column (key : string) (values : list (option R)) (results : list dict)
  : list dict :=
  match values, results with
  | v :: vs, r :: rs => dict_set key (to_pyval v) r :: set_column key vs rs
  | _, _ => results
  end.

(** The Bollinger branch writes the three keys of each record in turn. *)
Fixpoint set_bb_columns (up mid low : list (option R)) (results : list dict)
  : list dict :=
  match up, mid, low, results with
  | u :: us, m :: ms, l :: ls, r :: rs =>
      dict_set "bb_lower" (to_pyval l)
        (dict_set "bb_middle" (to_pyval m) (dict_set "bb_upper" (to_pyval u) r))
        :: set_bb_columns us ms ls rs
  | _, _, _, _ => results
  end.

(** One iteration of [for indicator_name in indicator_names]. *)
Definition apply_indicator (df : list OHLCVCandle) (results : list dict)
  (indicator_name : string) : list dict :=
  if String.eqb indicator_name "ema_20" then
    set_column "ema_20" (Qseries_to_R (calculate_ema df 20)) results
  else if String.eqb indicator_name "ema_50" then
    set_column "ema_50" (Qseries_to_R (calculate_ema df 50)) results
  else if String.eqb indicator_name "ema_200" then
    set_column "ema_200" (Qseries_to_R (calculate_ema df 200)) results
  else if String.eqb indicator_name "rsi_14" then
    set_column "rsi_14" (Qseries_to_R (calculate_rsi df 14)) results
  else if String.eqb indicator_name "bollinger_bands" then
    let bb := calculate_bollinger_bands df in
    set_bb_columns (bb_upper bb) (bb_middle bb) (bb_lower bb) results
  else if String.eqb indicator_name "volume_sma" then
    set_column "volume_sma" (calculate_volume_sma df) results
  else results.

Definition calculate_indicators (candles : list OHLCVCandle)
  (indicator_names : list string) : list dict :=
  match candles with
  | [] => []
  | _ =>
      let df := candles_to_dataframe candles in
      let results := map (fun row => [("timestamp"%string, VInt (timestamp row))]) df in
      fold_left (apply_indicator df) indicator_names results
  end.

(** ** [signals.py] *)

(** [df["ema_20"] - df["ema_50"]]: NaN propagates. *)
Definition opt_sub (a b : option Q) : option Q :=
  match a, b with
  | Some x, Some y => Some (x - y)
  | _, _ => None
  end.

(** [Series.shift(1)] *)
Definition shift1 (s : list (option Q)) : list (option Q) :=
  match s with
  | [] => []
  | _ => None :: removelast s
  end.

(** Python comparisons of a possibly-NaN float with a constant: every
    comparison involving NaN is false. *)
Definition nan_le (a : option Q) (c : Q) : bool :=
  match a with Some x => Qle_bool x c | None => false end.
Definition nan_ge (a : option Q) (c : Q) : bool :=
  match a with Some x => Qle_bool c x | None => false end.
Definition nan_lt (a : option Q) (c : Q) : bool :=
  match a with Some x => Qlt_bool x c | None => false end.
Definition nan_gt (a : option Q) (c : Q) : bool :=
  match a with Some x => Qlt_bool c x | None => false end.

(** Python's [min(a, b)]: the second argument only when strictly smaller. *)
Definition py_min (a b : Q) : Q := if Qlt_bool b a then b else a.

(** The columns of [df] read by the loop, one record per row. *)
Record Row := mkRow {
  row_timestamp : Z;
  row_close : Q;
  row_ema_20 : option Q;
  row_ema_50 : option Q;
  row_rsi_14 : option Q;
  row_ema_diff : option Q;
  row_ema_diff_prev : option Q
}.

Fixpoint build_rows (df : list OHLCVCandle)
  (e20 e50 rsi diff diff_prev : list (option Q)) : list Row :=
  match df, e20, e50, rsi, diff, diff_prev with
  | c :: df', a :: e20', b :: e50', r :: rsi', d :: diff', p :: diff_prev' =>
      mkRow (timestamp c) (close c) a b r d p
        :: build_rows df' e20' e50' rsi' diff' diff_prev'
  | _, _, _, _, _, _ => []
  end.

(** [Signal(...)]: pydantic checks [0.0 <= confidence <= 1.0]. *)
Definition Signal_new (symbol : string) (ts : Z) (act : SignalAction)
  (conf price : Q) (sid : string) (md : list (string * Q)) : result Signal :=
  if Qle_bool 0 conf && Qle_bool conf 1 then
    Ok (mkSignal symbol ts act conf price sid md)
  else Err (ValidationError "confidence")%string.

(** The crossover / RSI decision of one row: [(action, confidence)]. *)
Definition classify (ema_diff ema_diff_prev : option Q) (rsi : Q)
  : SignalAction * Q :=
  if nan_le ema_diff_prev 0 && nan_gt ema_diff 0 then
    if Qlt_bool rsi 70 then (buy, py_min 1 ((1#2) + (70 - rsi) / 100))
    else (hold, 3#10)
  else if nan_ge ema_diff_prev 0 && nan_lt ema_diff 0 then
    if Qlt_bool 30 rsi then (sell, py_min 1 ((1#2) + (rsi - 30) / 100))
    else (hold, 3#10)
  else (hold, 1#2).

(** The body of [for i in range(1, len(df))]. *)
Definition row_signal (symbol sid : string) (row : Row) : result (option Signal) :=
  match row_ema_20 row, row_ema_50 row, row_rsi_14 row with
  | Some e20, Some e50, Some rsi =>
      let '(act, conf) := classify (row_ema_diff row) (row_ema_diff_prev row) rsi in
      match act with
      | hold => Ok None
      | _ =>
          match Signal_new symbol (row_timestamp row) act conf (row_close row) sid
                  [("ema_20", e20); ("ema_50", e50); ("rsi_14", rsi)]%string with
          | Ok s => Ok (Some s)
          | Err e => Err e
          end
      end
  | _, _, _ => Ok None
  end.

Fixpoint signal_loop (symbol sid : string) (rows : list Row) : result (list Signal) :=
  match rows with
  | [] => Ok []
  | row :: rows' =>
      match row_signal symbol sid row with
      | Err e => Err e
      | Ok None => signal_loop symbol sid rows'
      | Ok (Some s) =>
          match signal_loop symbol sid rows' with
          | Ok l => Ok (s :: l)
          | Err e => Err e
          end
      end
  end.

Definition generate_ema_crossover_rsi_signals (candles : list OHLCVCandle)
  (symbol sid : string) : result (list Signal) :=
  if Nat.ltb (List.length candles) 50 then Ok []
  else
    let df := candles_to_dataframe candles in
    let ema_20 := calculate_ema df 20 in
    let ema_50 := calculate_ema df 50 in
    let rsi_14 := calculate_rsi df 14 in
    let ema_diff := zip_with opt_sub ema_20 ema_50 in
    let rows := build_rows df ema_20 ema_50 rsi_14 ema_diff (shift1 ema_diff) in
    signal_loop symbol sid (tl rows).

Definition generate_signals (candles : list OHLCVCandle) (symbol sid : string)
  : result (list Signal) :=
  if String.eqb sid "ema_crossover_rsi" then
    generate_ema_crossover_rsi_signals candles symbol sid
  else Err (ValueError ("Unknown strategy: " ++ sid)).

(** ** Routers *)

Inductive http_result (A : Type) :=
| HttpOk (a : A)
| HTTPException (status_code : Z) (detail : string).
Arguments HttpOk {A} a.
Arguments HTTPException {A} status_code detail.

(** ** Calling the market-data client ([clients.py]) and the full routers *)

Local Open Scope string_scope.

(** Exceptions that reach the routers' handlers: [PyValueError] for
    [ValueError] and its subclasses (pydantic's [ValidationError],
    [json.JSONDecodeError]), [PyTypeError] for [TypeError], [PyOtherError]
    for any other exception ([httpx.HTTPError], [KeyError], ...). *)
Inductive py_exc :=
| PyValueError (msg : string)
| PyTypeError (msg : string)
| PyOtherError (msg : string).

Inductive pyresult (A : Type) :=
| POk (a : A)
| PRaise (e : py_exc).
Arguments POk {A} a.
Arguments PRaise {A} e.

Definition exn_to_py (e : exn) : py_exc :=
  match e with
  | ValueError m => PyValueError m
  | ValidationError m => PyValueError m
  end.

(** [str(e)] *)
Definition py_exc_str (e : py_exc) : string :=
  match e with PyValueError m | PyTypeError m | PyOtherError m => m end.

(** Python's binding of a call made with keyword arguments only, to a
    function with no [**kwargs]: the first keyword naming no parameter is
    an error; otherwise every parameter left without a value is. *)
Inductive bind_error :=
| UnexpectedKeyword (k : string)
| MissingArguments (ps : list string).

Definition bind_kwargs (params kws : list string) : option bind_error :=
  match find (fun k => negb (existsb (String.eqb k) params)) kws with
  | Some k => Some (UnexpectedKeyword k)
  | None =>
      match filter (fun p => negb (existsb (String.eqb p) kws)) params with
      | [] => None
      | ps => Some (MissingArguments ps)
      end
  end.

(** Decimal digits of a natural number. *)
Fixpoint string_of_nat_aux (fuel n : nat) (acc : string) : string :=
  match fuel with
  | O => acc
  | S f =>
      let acc' := String (ascii_of_nat (48 + n mod 10)%nat) acc in
      if Nat.ltb n 10 then acc' else string_of_nat_aux f (n / 10) acc'
  end.

Definition string_of_nat (n : nat) : string := string_of_nat_aux (S n) n "".

Definition py_repr_str (s : string) : string := "'" ++ s ++ "'".

(** The list of missing names in CPython's message: ['a'], ['a' and 'b'],
    ['a', 'b', and 'c']. *)
Definition format_missing (ps : list string) : string :=
  match ps with
  | [a] => py_repr_str a
  | [a; b] => py_repr_str a ++ " and " ++ py_repr_str b
  | _ =>
      let init := removelast (removelast ps) in
      concat ", " (map py_repr_str init) ++ ", "
        ++ py_repr_str (nth (List.length ps - 2)%nat ps "") ++ ", and "
        ++ py_repr_str (last ps "")
  end.

(** The message of the [TypeError] raised by a failed binding. *)
Definition type_error_message (qualname : string) (e : bind_error) : string :=
  match e with
  | UnexpectedKeyword k =>
      qualname ++ "() got an unexpected keyword argument " ++ py_repr_str k
  | MissingArguments ps =>
      qualname ++ "() missing " ++ string_of_nat (List.length ps)
        ++ " required positional argument"
        ++ (if Nat.ltb 1 (List.length ps) then "s" else "") ++ ": "
        ++ format_missing ps
  end.

(** [async def get_candles(self, symbol, interval, from_ts, to_ts)] *)
Definition get_candles_params : list string :=
  ["symbol"; "interval"; "from_ts"; "to_ts"].

(** [await market_data_client.get_candles(...)] with the keywords [kws]: the arguments are bound
    when the coroutine function is called, before any request is sent; a
    call that binds returns what the market-data service gave,
    [response]: the candles, or the exception raised by the request,
    [raise_for_status()], [response.json()], [data["candles"]] or the
    candle models. *)
Definition MarketDataClient_get_candles (kws : list string)
  (response : pyresult (list OHLCVCandle)) : pyresult (list OHLCVCandle) :=
  match bind_kwargs get_candles_params kws with
  | Some e =>
      PRaise (PyTypeError (type_error_message "MarketDataClient.get_candles" e))
  | None => response
  end.

(** The keywords both routers pass to [get_candles]. *)
Definition router_get_candles_kws : list string :=
  ["provider"; "symbol"; "interval"; "from_ts"; "to_ts"].

(** [GenerateSignalsRequest] and [CalculateIndicatorsRequest]. *)
Record GenerateSignalsRequest := mkGenerateSignalsRequest {
  gs_provider : string;
  gs_symbol : string;
  gs_interval : string;
  gs_from : Z;
  gs_to : Z;
  gs_strategy_id : string
}.

Record CalculateIndicatorsRequest := mkCalculateIndicatorsRequest {
  ci_provider : string;
  ci_symbol : string;
  ci_interval : string;
  ci_from : Z;
  ci_to : Z;
  ci_indicators : list string
}.

(** [IndicatorResult] *)
Record IndicatorResult := mkIndicatorResult {
  ir_timestamp : Z;
  ir_values : dict
}.

(** [IndicatorResult(timestamp=item["timestamp"],
    values={k: v for k, v in item.items() if k != "timestamp"})]:
    [item["timestamp"]] raises [KeyError] when the key is absent; pydantic
    takes an int as the timestamp (the only value [calculate_indicators]
    stores there) and any other value is treated as rejected. *)
Definition to_indicator_result (item : dict) : pyresult IndicatorResult :=
  match dict_get "timestamp" item with
  | None => PRaise (PyOtherError "'timestamp'")
  | Some (VInt t) =>
      POk (mkIndicatorResult t
             (filter (fun kv => negb (String.eqb (fst kv) "timestamp")) item))
  | Some _ => PRaise (PyValueError "timestamp")
  end.

(** The list comprehension over [indicator_data]. *)
Fixpoint to_indicator_results (items : list dict) : pyresult (list IndicatorResult) :=
  match items with
  | [] => POk []
  | item :: items' =>
      match to_indicator_result item with
      | PRaise e => PRaise e
      | POk r =>
          match to_indicator_results items' with
          | POk rs => POk (r :: rs)
          | PRaise e => PRaise e
          end
      end
  end.

Module SignalsRouter.

(** [except ValueError]: 400; [except Exception]: 500. *)
Definition handle {A : Type} (e : py_exc) : http_result A :=
  match e with
  | PyValueError m => HTTPException 400 m
  | _ => HTTPException 500 (py_exc_str e)
  end.

(** [generate_signals_endpoint(payload, request)], with [response] the
    outcome of the market-data request. *)
Definition generate_signals_endpoint (payload : GenerateSignalsRequest)
  (response : pyresult (list OHLCVCandle)) : http_result (list Signal) :=
  match MarketDataClient_get_candles router_get_candles_kws response with
  | PRaise e => handle e
  | POk [] => HttpOk []
  | POk candles =>
      match generate_signals candles (gs_symbol payload) (gs_strategy_id payload) with
      | Ok s => HttpOk s
      | Err e => handle (exn_to_py e)
      end
  end.

End SignalsRouter.

Module IndicatorsRouter.

(** [calculate_indicators_endpoint(payload, request)]: every exception
    answers 500. *)
Definition calculate_indicators_endpoint (payload : CalculateIndicatorsRequest)
  (response : pyresult (list OHLCVCandle)) : http_result (list IndicatorResult) :=
  match MarketDataClient_get_candles router_get_candles_kws response with
  | PRaise e => HTTPException 500 (py_exc_str e)
  | POk [] => HttpOk []
  | POk candles =>
      match to_indicator_results (calculate_indicators candles (ci_indicators payload)) with
      | POk rs => HttpOk rs
      | PRaise e => HTTPException 500 (py_exc_str e)
      end
  end.

End IndicatorsRouter.

Local Close Scope string_scope.

(** ** Sample inputs *)

Definition candle_at (i : nat) (c : Q) : OHLCVCandle :=
  mkCandle "BTC/USDT" "1m" (1234567890000 + Z.of_nat i * 60000)%Z c c c c 100.

Definition candles_of (closes : list Q) : list OHLCVCandle :=
  map (fun p => candle_at (fst p) (snd p)) (combine (seq 0 (List.length closes)) closes).

Definition linear_closes (n : nat) (step : Z) : list Q :=
  map (fun i => inject_Z (50005 + step * Z.of_nat i)) (seq 0 n).

(** ** Readings of the specification *)

(** Equality of possibly-absent values: both absent, or equal numbers. *)
Definition opt_Qeq (a b : option Q) : Prop :=
  match a, b with
  | Some x, Some y => x == y
  | None, None => True
  | _, _ => False
  end.

Definition opt_Qeqb (a b : option Q) : bool :=
  match a, b with
  | Some x, Some y => Qeq_bool x y
  | None, None => true
  | _, _ => false
  end.

Fixpoint series_eqb (s t : list (option Q)) : bool :=
  match s, t with
  | [], [] => true
  | a :: s', b :: t' => opt_Qeqb a b && series_eqb s' t'
  | _, _ => false
  end.

(** EMA as the specification words it: absent below [period-1]; the seed
    [ema[period-1]] is the mean of the first [period] closes; afterwards
    [ema[i] = close[i]*alpha + ema[i-1]*(1-alpha)]. *)
Fixpoint ema_smooth (alpha prev : Q) (xs : list Q) : list (option Q) :=
  match xs with
  | [] => []
  | x :: xs' =>
      let e := x * alpha + prev * (1 - alpha) in
      Some e :: ema_smooth alpha e xs'
  end.

Definition ema_sma_seed (closes : list Q) (period : nat) : list (option Q) :=
  if Nat.ltb (List.length closes) period then repeat None (List.length closes)
  else
    let seed := meanQ (firstn period closes) in
    repeat None (period - 1) ++ Some seed
      :: ema_smooth (ema_alpha period) seed (skipn period closes).

(** The same recursion started from [ema[0] = close[0]]. *)
Fixpoint ema_rec (alpha : Q) (closes : list Q) (i : nat) : Q :=
  match i with
  | O => nth 0 closes 0
  | S j => nth (S j) closes 0 * alpha + ema_rec alpha closes j * (1 - alpha)
  end.

Definition ema_first_seed (closes : list Q) (period : nat) : list (option Q) :=
  map (fun i => if Nat.ltb i (period - 1) then None
                else Some (ema_rec (ema_alpha period) closes i))
    (seq 0 (List.length closes)).

(** The input of the EMA counterexample: one close of 20, then 19 zeros. *)
Definition ema_cex_candles : list OHLCVCandle :=
  candles_of (20 :: repeat 0 19).

(** Two candles given out of timestamp order. *)
Definition unsorted_candles : list OHLCVCandle :=
  [mkCandle "BTC/USDT" "1m" 2 10 10 10 10 100;
   mkCandle "BTC/USDT" "1m" 1 20 20 20 20 100]%string.

Definition timestamp_le (a b : OHLCVCandle) : Prop :=
  (timestamp a <= timestamp b)%Z.

(** Thirty candles with rising closes. *)
Definition short_candles : list OHLCVCandle :=
  candles_of (linear_closes 30 1).

(** Sixty candles with rising closes. *)
Definition sixty_candles : list OHLCVCandle :=
  candles_of (linear_closes 60 10).

(** Twenty candles with closes 1, 2, ..., 20. *)
Definition bb_candles : list OHLCVCandle :=
  candles_of (map (fun i => inject_Z (Z.of_nat i)) (seq 1 20)).

(** The ema_crossover_rsi strategy as the specification words it, over the
    series sorted by timestamp.  [diff[i] = EMA20[i] - EMA50[i]] where both
    are defined. *)
Definition dummy_candle : OHLCVCandle := mkCandle "" "" 0 0 0 0 0 0.

Definition ema_diff_at (e20 e50 : list (option Q)) (i : nat) : option Q :=
  match nth i e20 None, nth i e50 None with
  | Some a, Some b => Some (a - b)
  | _, _ => None
  end.

(** At index [i >= 1] with [diff[i-1]], [diff[i]] and [RSI[i]] defined:
    buy when [diff[i-1] <= 0 < diff[i]] and [RSI[i] < 70], sell when
    [diff[i-1] >= 0 > diff[i]] and [RSI[i] > 30]; nothing otherwise. *)
Definition crossover_signal_at (df : list OHLCVCandle) (symbol : string)
  (e20 e50 rsi : list (option Q)) (i : nat) : list Signal :=
  match ema_diff_at e20 e50 (i - 1), nth i e20 None, nth i e50 None, nth i rsi None with
  | Some dp, Some a, Some b, Some r =>
      let d := a - b in
      let c := nth i df dummy_candle in
      let md := [("ema_20", a); ("ema_50", b); ("rsi_14", r)]%string in
      if Qle_bool dp 0 && Qlt_bool 0 d && Qlt_bool r 70 then
        [mkSignal symbol (timestamp c) buy (Qmin 1 ((1#2) + (70 - r) / 100))
           (close c) "ema_crossover_rsi" md]
      else if Qle_bool 0 dp && Qlt_bool d 0 && Qlt_bool 30 r then
        [mkSignal symbol (timestamp c) sell (Qmin 1 ((1#2) + (r - 30) / 100))
           (close c) "ema_crossover_rsi" md]
      else []
  | _, _, _, _ => []
  end.

Definition crossover_signals_spec (candles : list OHLCVCandle) (symbol : string)
  : list Signal :=
  let df := sort_values_timestamp candles in
  let e20 := calculate_ema df 20 in
  let e50 := calculate_ema df 50 in
  let rsi := calculate_rsi df 14 in
  flat_map (crossover_signal_at df symbol e20 e50 rsi) (seq 1 (List.length df - 1)).

Definition opt_list {A : Type} (o : option A) : list A :=
  match o with Some a => [a] | None => [] end.

(** Eighty candles whose closes rise and fall in runs of seven. *)
Definition zigzag_candles : list OHLCVCandle :=
  candles_of (map (fun i => if Nat.even (Nat.div i 7) then inject_Z (Z.of_nat i)
                            else inject_Z (100 - Z.of_nat i)) (seq 0 80)).

(** Strictly increasing closes. *)
Fixpoint increasing_b (xs : list Q) : bool :=
  match xs with
  | x :: ((y :: _) as t) => Qlt_bool x y && increasing_b t
  | _ => true
  end.

(** A hundred candles with closes 50005, 50015, ... *)
Definition uptrend_candles : list OHLCVCandle :=
  candles_of (linear_closes 100 10).

(** The name of [indicator_names] whose branch of [calculate_indicators]
    writes the key [k] of a record. *)
Definition key_indicator (k : string) : option string :=
  if String.eqb k "ema_20" then Some "ema_20"%string
  else if String.eqb k "ema_50" then Some "ema_50"%string
  else if String.eqb k "ema_200" then Some "ema_200"%string
  else if String.eqb k "rsi_14" then Some "rsi_14"%string
  else if String.eqb k "bb_upper" then Some "bollinger_bands"%string
  else if String.eqb k "bb_middle" then Some "bollinger_bands"%string
  else if String.eqb k "bb_lower" then Some "bollinger_bands"%string
  else if String.eqb k "volume_sma" then Some "volume_sma"%string
  else None.

(** The series that branch writes under [k]. *)
Definition key_column (df : list OHLCVCandle) (k : string) : list (option R) :=
  if String.eqb k "ema_20" then Qseries_to_R (calculate_ema df 20)
  else if String.eqb k "ema_50" then Qseries_to_R (calculate_ema df 50)
  else if String.eqb k "ema_200" then Qseries_to_R (calculate_ema df 200)
  else if String.eqb k "rsi_14" then Qseries_to_R (calculate_rsi df 14)
  else if String.eqb k "bb_upper" then bb_upper (calculate_bollinger_bands df)
  else if String.eqb k "bb_middle" then bb_middle (calculate_bollinger_bands df)
  else if String.eqb k "bb_lower" then bb_lower (calculate_bollinger_bands df)
  else if String.eqb k "volume_sma" then calculate_volume_sma df
  else [].

(** Non-decreasing closes. *)
Fixpoint nondecreasing_b (xs : list Q) : bool :=
  match xs with
  | x :: ((y :: _) as t) => Qle_bool x y && nondecreasing_b t
  | _ => true
  end.

(** Sixty candles all closing at 7. *)
Definition flat_candles : list OHLCVCandle :=
  candles_of (repeat 7 60).

(** * Verification *)

(** ** General lemmas *)

Lemma opt_Qeqb_complete (a b : option Q) : opt_Qeq a b -> opt_Qeqb a b = true.
Proof.
  destruct a, b; simpl; auto.
  intro H; apply Qeq_bool_iff; exact H.
Qed.

Lemma series_eqb_complete (s t : list (option Q)) :
  Forall2 opt_Qeq s t -> series_eqb s t = true.
Proof.
  induction 1 as [|a b s t Hab _ IH]; simpl; auto.
  rewrite (opt_Qeqb_complete _ _ Hab), IH; reflexivity.
Qed.

Lemma Forall2_of_nth_error {A B : Type} (P : A -> B -> Prop) (l1 : list A) (l2 : list B) :
  List.length l1 = List.length l2 ->
  (forall i a b, nth_error l1 i = Some a -> nth_error l2 i = Some b -> P a b) ->
  Forall2 P l1 l2.
Proof.
  revert l2; induction l1 as [|a l1 IH]; intros [|b l2] Hlen Hnth;
    simpl in Hlen; try discriminate; constructor.
  - apply (Hnth 0%nat); reflexivity.
  - apply IH; [lia|]. intros i x y H1 H2. apply (Hnth (S i)); assumption.
Qed.

Lemma length_ewm_run (alpha prev : Q) (xs : list Q) :
  List.length (ewm_run alpha prev xs) = List.length xs.
Proof.
  revert prev; induction xs; simpl; intros; auto.
Qed.

Lemma length_ewm_noadjust (alpha : Q) (xs : list Q) :
  List.length (ewm_noadjust alpha xs) = List.length xs.
Proof.
  destruct xs; simpl; rewrite ?length_ewm_run; auto.
Qed.

Lemma length_mask_min_periods (k m : nat) (ys : list Q) :
  List.length (mask_min_periods k m ys) = List.length ys.
Proof.
  revert k; induction ys; simpl; intros; auto.
Qed.

Lemma nth_error_mask_min_periods (k m i : nat) (ys : list Q) :
  nth_error (mask_min_periods k m ys) i
  = option_map (fun y => if Nat.ltb (S (k + i)) m then None else Some y)
      (nth_error ys i).
Proof.
  revert k i; induction ys as [|y ys IH]; intros k [|i]; simpl; auto.
  - rewrite Nat.add_0_r; reflexivity.
  - rewrite IH, Nat.add_succ_r; reflexivity.
Qed.

(** ** EMA *)

Lemma ema_rec_head_proper (alpha y y' : Q) (l : list Q) (j : nat) :
  y == y' -> ema_rec alpha (y :: l) j == ema_rec alpha (y' :: l) j.
Proof.
  intro Hy; induction j as [|j IH]; simpl.
  - exact Hy.
  - rewrite IH; reflexivity.
Qed.

Lemma ema_rec_shift (alpha x0 x1 : Q) (l : list Q) (j : nat) :
  ema_rec alpha (x0 :: x1 :: l) (S j)
  == ema_rec alpha ((x1 * alpha + x0 * (1 - alpha)) :: l) j.
Proof.
  induction j as [|j IH].
  - reflexivity.
  - change (ema_rec alpha (x0 :: x1 :: l) (S (S j)))
      with (nth (S (S j)) (x0 :: x1 :: l) 0 * alpha
            + ema_rec alpha (x0 :: x1 :: l) (S j) * (1 - alpha)).
    rewrite IH; reflexivity.
Qed.

Lemma ewm_run_nth (alpha : Q) (xs : list Q) (x0 : Q) (i : nat) :
  (i <= List.length xs)%nat ->
  nth i (x0 :: ewm_run alpha x0 xs) 0 == ema_rec alpha (x0 :: xs) i.
Proof.
  revert x0 i; induction xs as [|x1 xs IH]; intros x0 i Hi.
  - simpl in Hi. replace i with 0%nat by lia. reflexivity.
  - destruct i as [|j]; [reflexivity|].
    simpl in Hi.
    change (nth (S j) (x0 :: ewm_run alpha x0 (x1 :: xs)) 0)
      with (nth j (((1 - alpha) * x0 + alpha * x1)
                     :: ewm_run alpha ((1 - alpha) * x0 + alpha * x1) xs) 0).
    rewrite IH by lia.
    rewrite ema_rec_shift.
    apply ema_rec_head_proper. ring.
Qed.

(** The [ta] EMA is the recursion seeded with the first close, reported
    from index [period-1] on. *)
Lemma ta_ema_first_seed (closes : list Q) (period : nat) :
  Forall2 opt_Qeq (ta_ema closes period) (ema_first_seed closes period).
Proof.
  apply Forall2_of_nth_error.
  - unfold ta_ema, ewm_mean, ema_first_seed.
    rewrite length_mask_min_periods, length_ewm_noadjust, length_map, length_seq.
    reflexivity.
  - intros i a b H1 H2.
    unfold ta_ema, ewm_mean in H1. rewrite nth_error_mask_min_periods in H1.
    unfold ema_first_seed in H2. rewrite nth_error_map, nth_error_seq in H2.
    destruct (Nat.ltb_spec i (List.length closes)) as [Hlt|Hge]; [|discriminate].
    simpl in H2. injection H2 as <-.
    destruct closes as [|x0 xs]; [simpl in Hlt; lia|].
    simpl ewm_noadjust in H1.
    destruct (nth_error (x0 :: ewm_run (ema_alpha period) x0 xs) i) as [y|] eqn:Hy;
      [|discriminate].
    simpl in H1. injection H1 as <-.
    apply nth_error_nth with (d := 0) in Hy.
    destruct (Nat.ltb_spec (S i) period), (Nat.ltb_spec i (period - 1));
      try lia; simpl; auto.
    rewrite <- Hy. apply ewm_run_nth. simpl in Hlt. lia.
Qed.

(** C1 (counterexample): on the closes [20, 0, ..., 0] (20 candles) the
    EMA(20) of the indicator engine is not the series seeded with the mean
    of the first 20 closes: at index 19 it is [20 * (19/21)^19], not 1. *)
Lemma calculate_ema_sma_seed_cex :
  ~ Forall2 opt_Qeq
      (calculate_ema (candles_to_dataframe ema_cex_candles) 20)
      (ema_sma_seed (map close (candles_to_dataframe ema_cex_candles)) 20).
Proof.
  intro H. apply series_eqb_complete in H. vm_compute in H. discriminate.
Qed.

(** C1 (amended): for every nonempty candle list and every period in
    [{20, 50, 200}], the EMA of the indicator engine is absent at the indices [i < period-1] and, at every
    [i >= period-1], equals the recursion
    [ema[i] = close[i]*alpha + ema[i-1]*(1-alpha)], [alpha = 2/(period+1)],
    started from [ema[0] = close[0]] (not from the mean of the first
    [period] closes). *)
Theorem calculate_ema_first_close_seed (candles : list OHLCVCandle) (period : nat) :
  (period = 20 \/ period = 50 \/ period = 200)%nat ->
  candles <> [] ->
  Forall2 opt_Qeq
    (calculate_ema (candles_to_dataframe candles) period)
    (ema_first_seed (map close (candles_to_dataframe candles)) period).
Proof.
  intros _ _. apply ta_ema_first_seed.
Qed.

Lemma calculate_ema_first_close_seed_witness :
  (20 = 20 \/ 20 = 50 \/ 20 = 200)%nat /\ ema_cex_candles <> [] /\
  Forall2 opt_Qeq
    (calculate_ema (candles_to_dataframe ema_cex_candles) 20)
    (ema_first_seed (map close (candles_to_dataframe ema_cex_candles)) 20).
Proof.
  split; [left; reflexivity|split; [vm_compute; discriminate|]].
  apply calculate_ema_first_close_seed; [left; reflexivity|vm_compute; discriminate].
Defined.

(** ** Result records of [calculate_indicators] *)

(** Every record keeps its [timestamp] entry at the head. *)
Definition has_timestamp (t : Z) (d : dict) : Prop :=
  exists rest, d = ("timestamp"%string, VInt t) :: rest.

Lemma indicator_key_not_timestamp (k : string) :
  In k ["ema_20"; "ema_50"; "ema_200"; "rsi_14"; "bb_upper"; "bb_middle";
        "bb_lower"; "volume_sma"]%string ->
  String.eqb k "timestamp" = false.
Proof.
  intros H; repeat (destruct H as [<-|H]; [reflexivity|]); destruct H.
Qed.

Lemma dict_set_has_timestamp (k : string) (v : pyval) (t : Z) (d : dict) :
  String.eqb k "timestamp" = false -> has_timestamp t d ->
  has_timestamp t (dict_set k v d).
Proof.
  intros Hk [rest ->]. simpl. rewrite Hk. eexists; reflexivity.
Qed.

Lemma set_column_timestamps (key : string) (values : list (option R))
  (results : list dict) (ts : list Z) :
  String.eqb key "timestamp" = false ->
  Forall2 has_timestamp ts results ->
  Forall2 has_timestamp ts (set_column key values results).
Proof.
  intros Hk H; revert values; induction H as [|t d ts results Hd Hrest IH];
    intros [|v values]; simpl; constructor; auto.
  apply dict_set_has_timestamp; assumption.
Qed.

Lemma set_bb_columns_timestamps (up mid low : list (option R))
  (results : list dict) (ts : list Z) :
  Forall2 has_timestamp ts results ->
  Forall2 has_timestamp ts (set_bb_columns up mid low results).
Proof.
  intros H; revert up mid low; induction H as [|t d ts results Hd Hrest IH];
    intros [|u up] [|m mid] [|l low]; simpl; constructor; auto.
  repeat (apply dict_set_has_timestamp; [reflexivity|]). assumption.
Qed.

Lemma apply_indicator_timestamps (df : list OHLCVCandle) (results : list dict)
  (name : string) (ts : list Z) :
  Forall2 has_timestamp ts results ->
  Forall2 has_timestamp ts (apply_indicator df results name).
Proof.
  intros H. unfold apply_indicator.
  repeat match goal with
  | |- context [if String.eqb ?a ?b then _ else _] => destruct (String.eqb a b)
  end;
  first [ apply set_bb_columns_timestamps; assumption
        | apply set_column_timestamps; [reflexivity|assumption]
        | assumption ].
Qed.

Lemma calculate_indicators_timestamps (candles : list OHLCVCandle)
  (names : list string) :
  Forall2 has_timestamp (map timestamp (candles_to_dataframe candles))
    (calculate_indicators candles names).
Proof.
  destruct candles as [|c cs]; [constructor|].
  unfold calculate_indicators.
  set (df := candles_to_dataframe (c :: cs)).
  assert (H0 : Forall2 has_timestamp (map timestamp df)
                 (map (fun row => [("timestamp"%string, VInt (timestamp row))]) df)).
  { clearbody df. induction df as [|r df IH]; simpl; constructor; auto.
    eexists; reflexivity. }
  clearbody df. revert H0. generalize (map (fun row => [("timestamp"%string, VInt (timestamp row))]) df).
  induction names as [|n names IH]; simpl; intros results H0; auto.
  apply IH. apply apply_indicator_timestamps. assumption.
Qed.

Lemma has_timestamp_get (ts : list Z) (ds : list dict) :
  Forall2 has_timestamp ts ds ->
  map (dict_get "timestamp") ds = map (fun t => Some (VInt t)) ts.
Proof.
  induction 1 as [|t d ts ds [rest ->] _ IH]; simpl; auto.
  rewrite IH; reflexivity.
Qed.

(** ** Sorting by timestamp *)

Lemma candles_to_dataframe_sort (l : list OHLCVCandle) :
  candles_to_dataframe l = sort_values_timestamp l.
Proof. destruct l; reflexivity. Qed.

Lemma insert_by_timestamp_perm (c : OHLCVCandle) (l : list OHLCVCandle) :
  Permutation (insert_by_timestamp c l) (c :: l).
Proof.
  induction l as [|c' l IH]; simpl; auto.
  destruct (Z.leb (timestamp c) (timestamp c')); auto.
  eapply perm_trans; [apply perm_skip, IH|apply perm_swap].
Qed.

Lemma sort_values_timestamp_perm (l : list OHLCVCandle) :
  Permutation (sort_values_timestamp l) l.
Proof.
  induction l as [|c l IH]; simpl; auto.
  eapply perm_trans; [apply insert_by_timestamp_perm|]. auto.
Qed.

Lemma insert_by_timestamp_sorted (c : OHLCVCandle) (l : list OHLCVCandle) :
  Sorted timestamp_le l -> Sorted timestamp_le (insert_by_timestamp c l).
Proof.
  induction l as [|c' l IH]; simpl; intro H.
  - repeat constructor.
  - apply Sorted_inv in H as [Hs Hhd].
    destruct (Z.leb_spec (timestamp c) (timestamp c')).
    + constructor; [constructor; assumption|constructor; exact H].
    + constructor; [apply IH; assumption|].
      destruct l as [|c'' l]; simpl.
      * constructor. unfold timestamp_le. lia.
      * destruct (Z.leb (timestamp c) (timestamp c'')).
        -- constructor. unfold timestamp_le. lia.
        -- apply HdRel_inv in Hhd. constructor. exact Hhd.
Qed.

Lemma sort_values_timestamp_sorted (l : list OHLCVCandle) :
  Sorted timestamp_le (sort_values_timestamp l).
Proof.
  induction l; simpl; auto using insert_by_timestamp_sorted.
Qed.

Lemma sort_values_timestamp_id (l : list OHLCVCandle) :
  Sorted timestamp_le l -> sort_values_timestamp l = l.
Proof.
  induction l as [|c l IH]; simpl; intro H; auto.
  apply Sorted_inv in H as [Hs Hhd]. rewrite IH by assumption.
  destruct l as [|c' l]; simpl; auto.
  apply HdRel_inv in Hhd. unfold timestamp_le in Hhd.
  apply Z.leb_le in Hhd. rewrite Hhd. reflexivity.
Qed.

(** C5 (counterexample): with candles given out of timestamp order
    (timestamps 2 then 1) the records do not follow the input order: the
    first record carries timestamp 1, the first candle has timestamp 2. *)
Lemma calculate_indicators_input_order_cex :
  map (dict_get "timestamp") (calculate_indicators unsorted_candles [])
  <> map (fun c => Some (VInt (timestamp c))) unsorted_candles.
Proof.
  vm_compute. intro H. discriminate H.
Qed.

(** C5 (amended): for every candle list and every list of indicator names,
    [calculate_indicators] returns one record per candle; the records follow
    the candles sorted by ascending timestamp (a permutation of the input,
    equal to the input when it is already sorted and its timestamps are
    distinct), and record [i] carries
    the timestamp of the [i]-th candle of that order. *)
Theorem calculate_indicators_records (candles : list OHLCVCandle)
  (names : list string) :
  List.length (calculate_indicators candles names) = List.length candles /\
  map (dict_get "timestamp") (calculate_indicators candles names)
  = map (fun c => Some (VInt (timestamp c))) (sort_values_timestamp candles) /\
  Permutation (sort_values_timestamp candles) candles /\
  Sorted timestamp_le (sort_values_timestamp candles) /\
  (NoDup (map timestamp candles) -> Sorted timestamp_le candles ->
   sort_values_timestamp candles = candles).
Proof.
  pose proof (calculate_indicators_timestamps candles names) as H.
  rewrite candles_to_dataframe_sort in H.
  split; [|split; [|split; [|split]]].
  - apply Forall2_length in H. rewrite <- H, length_map.
    apply Permutation_length, sort_values_timestamp_perm.
  - rewrite (has_timestamp_get _ _ H), map_map. reflexivity.
  - apply sort_values_timestamp_perm.
  - apply sort_values_timestamp_sorted.
  - intros _. apply sort_values_timestamp_id.
Qed.

(** ** Strategy dispatch and the empty and short inputs *)

(** C3: for every candle list and symbol, [generate_signals] with a
    strategy id other than ["ema_crossover_rsi"] raises a [ValueError]
    (no signal is produced) whose message contains the id: the exception
    class of bad input, which the signals router separates from server
    faults with [except ValueError]. *)
Theorem generate_signals_unknown_strategy (candles : list OHLCVCandle)
  (symbol sid : string) :
  sid <> "ema_crossover_rsi"%string ->
  exists msg,
    generate_signals candles symbol sid = Err (ValueError msg) /\
    (exists pre, msg = (pre ++ sid)%string).
Proof.
  intros Hsid.
  assert (Hg : generate_signals candles symbol sid
               = Err (ValueError ("Unknown strategy: " ++ sid))).
  { unfold generate_signals. apply String.eqb_neq in Hsid. rewrite Hsid.
    reflexivity. }
  exists ("Unknown strategy: " ++ sid)%string. split; [exact Hg|].
  eexists; reflexivity.
Qed.

Lemma generate_signals_unknown_strategy_witness :
  "unknown_strategy"%string <> "ema_crossover_rsi"%string /\
  exists msg,
    generate_signals sixty_candles "BTC/USDT" "unknown_strategy" = Err (ValueError msg) /\
    (exists pre, msg = (pre ++ "unknown_strategy")%string).
Proof.
  split; [discriminate|].
  apply generate_signals_unknown_strategy. discriminate.
Defined.

(** C4: for every candle list with fewer than 50 candles and every symbol,
    [generate_signals] with ["ema_crossover_rsi"] returns an empty list and
    raises nothing, whatever the candle values. *)
Theorem generate_signals_short_series (candles : list OHLCVCandle) (symbol : string) :
  (List.length candles < 50)%nat ->
  generate_signals candles symbol "ema_crossover_rsi" = Ok [].
Proof.
  intros Hlen. unfold generate_signals, generate_ema_crossover_rsi_signals.
  simpl String.eqb. cbv iota.
  apply Nat.ltb_lt in Hlen. rewrite Hlen. reflexivity.
Qed.

Lemma generate_signals_short_series_witness :
  (List.length short_candles < 50)%nat /\
  generate_signals short_candles "BTC/USDT" "ema_crossover_rsi" = Ok [].
Proof.
  split; [vm_compute; lia|].
  apply generate_signals_short_series. vm_compute. lia.
Defined.

(** C8 (counterexample): on the empty candle list, [generate_signals] with
    a strategy id other than ["ema_crossover_rsi"] raises the
    unknown-strategy [ValueError] instead of returning an empty list. *)
Lemma generate_signals_empty_unknown_cex :
  generate_signals [] "BTC/USDT" "unknown_strategy" <> Ok [].
Proof. vm_compute. discriminate. Qed.

(** C8 (amended): on the empty candle list, [calculate_indicators] returns
    an empty list for every name list and [generate_signals] returns an
    empty list for ["ema_crossover_rsi"]; with any other strategy id
    [generate_signals] raises the unknown-strategy [ValueError]. *)
Theorem empty_candles_results (names : list string) (symbol sid : string) :
  calculate_indicators [] names = [] /\
  generate_signals [] symbol "ema_crossover_rsi" = Ok [] /\
  (sid <> "ema_crossover_rsi"%string ->
   generate_signals [] symbol sid = Err (ValueError ("Unknown strategy: " ++ sid))).
Proof.
  split; [reflexivity|split; [reflexivity|]].
  intros Hsid. unfold generate_signals.
  apply String.eqb_neq in Hsid. rewrite Hsid. reflexivity.
Qed.

(** C10: ["macd"] belongs to [IndicatorName]; for every candle list,
    [calculate_indicators candles ["macd"]] raises nothing and returns
    records that hold only their timestamp: no branch handles ["macd"]. *)
Theorem calculate_indicators_macd_ignored (candles : list OHLCVCandle) :
  In "macd"%string IndicatorName_values /\
  calculate_indicators candles ["macd"%string]
  = map (fun row => [("timestamp"%string, VInt (timestamp row))])
      (candles_to_dataframe candles).
Proof.
  split.
  - simpl; tauto.
  - destruct candles as [|c cs]; reflexivity.
Qed.

(** ** RSI range *)

(** Linear arithmetic over [Q] (the [R] version is also loaded). *)
Ltac qlra := Lqa.lra.

Definition opt_nonneg (o : option Q) : Prop :=
  match o with Some v => 0 <= v | None => True end.

Lemma ewm_run_nonneg (alpha prev : Q) (xs : list Q) :
  0 <= alpha <= 1 -> 0 <= prev -> Forall (Qle 0) xs ->
  Forall (Qle 0) (ewm_run alpha prev xs).
Proof.
  intros [Ha0 Ha1]; revert prev; induction xs as [|x xs IH]; intros prev Hp Hxs;
    simpl; [constructor|].
  inversion Hxs as [|x' xs' Hx Hxs']; subst.
  assert (Hy : 0 <= (1 - alpha) * prev + alpha * x)
    by (assert (0 <= (1 - alpha) * prev) by (apply Qmult_le_0_compat; qlra);
        assert (0 <= alpha * x) by (apply Qmult_le_0_compat; qlra);
        set (A := (1 - alpha) * prev) in *; set (B := alpha * x) in *; qlra).
  constructor; auto.
Qed.

Lemma ewm_mean_nonneg (alpha : Q) (m : nat) (xs : list Q) :
  0 <= alpha <= 1 -> Forall (Qle 0) xs ->
  Forall opt_nonneg (ewm_mean alpha m xs).
Proof.
  intros Ha Hxs. unfold ewm_mean.
  assert (Hy : Forall (Qle 0) (ewm_noadjust alpha xs)).
  { destruct xs as [|x xs]; simpl; constructor; inversion Hxs; subst; auto.
    apply ewm_run_nonneg; assumption. }
  generalize 0%nat. induction Hy as [|y ys Hy0 _ IH]; intros k; simpl; constructor; auto.
  destruct (Nat.ltb (S k) m); simpl; auto.
Qed.

Lemma rsi_alpha_range (window : nat) : 0 <= 1 / Q_of_nat window <= 1.
Proof.
  unfold Q_of_nat. destruct window as [|w].
  - simpl. split; discriminate.
  - assert (Hw : 1 <= inject_Z (Z.of_nat (S w))).
    { change 1 with (inject_Z 1). rewrite <- Zle_Qle. lia. }
    split.
    + apply Qle_shift_div_l; qlra.
    + apply Qle_shift_div_r; qlra.
Qed.

Lemma up_direction_nonneg (d : option Q) : 0 <= up_direction d.
Proof.
  destruct d as [v|]; simpl; [|qlra].
  unfold Qlt_bool. destruct (Qle_bool v 0) eqn:E; simpl; [qlra|].
  apply Bool.not_true_iff_false in E. rewrite Qle_bool_iff in E. qlra.
Qed.

Lemma down_direction_nonneg (d : option Q) : 0 <= down_direction d.
Proof.
  destruct d as [v|]; simpl; [|qlra].
  unfold Qlt_bool. destruct (Qle_bool 0 v) eqn:E; simpl; [qlra|].
  apply Bool.not_true_iff_false in E. rewrite Qle_bool_iff in E. qlra.
Qed.

Lemma ta_rsi_emaup_nonneg (closes : list Q) (window : nat) :
  Forall opt_nonneg (ta_rsi_emaup closes window).
Proof.
  apply ewm_mean_nonneg; [apply rsi_alpha_range|].
  apply Forall_forall. intros x Hx. apply in_map_iff in Hx as [d [<- _]].
  apply up_direction_nonneg.
Qed.

Lemma ta_rsi_emadn_nonneg (closes : list Q) (window : nat) :
  Forall opt_nonneg (ta_rsi_emadn closes window).
Proof.
  apply ewm_mean_nonneg; [apply rsi_alpha_range|].
  apply Forall_forall. intros x Hx. apply in_map_iff in Hx as [d [<- _]].
  apply down_direction_nonneg.
Qed.

Lemma nth_error_zip_with {A B C : Type} (f : A -> B -> C) (xs : list A) (ys : list B)
  (i : nat) (c : C) :
  nth_error (zip_with f xs ys) i = Some c ->
  exists a b, nth_error xs i = Some a /\ nth_error ys i = Some b /\ c = f a b.
Proof.
  revert ys i; induction xs as [|x xs IH]; intros [|y ys] [|i] H; simpl in *;
    try discriminate.
  - injection H as <-. exists x, y. auto.
  - apply IH in H. exact H.
Qed.

Lemma rsi_value_range (up dn : option Q) (v : Q) :
  opt_nonneg up -> opt_nonneg dn -> rsi_value up dn = Some v -> 0 <= v <= 100.
Proof.
  intros Hup Hdn H. destruct dn as [d|]; [|discriminate]. simpl in H, Hdn.
  destruct (Qeq_bool d 0) eqn:E.
  - injection H as <-. qlra.
  - apply Qeq_bool_neq in E.
    destruct up as [u|]; [|discriminate]. simpl in Hup.
    injection H as <-.
    assert (Hd : 0 < d) by (destruct (Qle_lt_or_eq _ _ Hdn) as [?|Hz];
                            [assumption|exfalso; apply E; symmetry; exact Hz]).
    assert (Hx : 0 <= u / d) by (apply Qle_shift_div_l; qlra).
    assert (Hy0 : 0 <= 100 / (1 + u / d)) by (apply Qle_shift_div_l; qlra).
    assert (Hy1 : 100 / (1 + u / d) <= 100) by (apply Qle_shift_div_r; qlra).
    qlra.
Qed.

Lemma rsi_value_zero_loss (up : option Q) (d : Q) :
  d == 0 -> rsi_value up (Some d) = Some 100.
Proof.
  intros Hd. simpl. apply Qeq_bool_iff in Hd. rewrite Hd. reflexivity.
Qed.

Lemma nth_error_zip_with_intro {A B C : Type} (f : A -> B -> C) (xs : list A)
  (ys : list B) (i : nat) (a : A) (b : B) :
  nth_error xs i = Some a -> nth_error ys i = Some b ->
  nth_error (zip_with f xs ys) i = Some (f a b).
Proof.
  revert ys i; induction xs as [|x xs IH]; intros [|y ys] [|i] Ha Hb;
    simpl in *; try discriminate.
  - injection Ha as <-; injection Hb as <-; reflexivity.
  - apply IH; assumption.
Qed.

Lemma length_ewm_mean (alpha : Q) (m : nat) (xs : list Q) :
  List.length (ewm_mean alpha m xs) = List.length xs.
Proof.
  unfold ewm_mean. rewrite length_mask_min_periods, length_ewm_noadjust. reflexivity.
Qed.

Lemma length_ta_rsi_emaup_emadn (closes : list Q) (window : nat) :
  List.length (ta_rsi_emaup closes window) = List.length (ta_rsi_emadn closes window).
Proof.
  unfold ta_rsi_emaup, ta_rsi_emadn. rewrite !length_ewm_mean, !length_map. reflexivity.
Qed.

Lemma Forall_nth_error_opt (P : option Q -> Prop) (l : list (option Q)) (i : nat)
  (o : option Q) :
  Forall P l -> nth_error l i = Some o -> P o.
Proof.
  intros HF Hi. rewrite Forall_forall in HF. apply HF. eapply nth_error_In; eassumption.
Qed.

Lemma ta_rsi_range (closes : list Q) (window i : nat) (v : Q) :
  nth_error (ta_rsi closes window) i = Some (Some v) -> 0 <= v <= 100.
Proof.
  intros H. unfold ta_rsi in H.
  apply nth_error_zip_with in H as [up [dn [Hup [Hdn Hv]]]].
  apply (rsi_value_range up dn v).
  - exact (Forall_nth_error_opt _ _ _ _ (ta_rsi_emaup_nonneg closes window) Hup).
  - exact (Forall_nth_error_opt _ _ _ _ (ta_rsi_emadn_nonneg closes window) Hdn).
  - symmetry; exact Hv.
Qed.

Lemma ta_rsi_zero_loss (closes : list Q) (window i : nat) (d : Q) :
  nth_error (ta_rsi_emadn closes window) i = Some (Some d) -> d == 0 ->
  nth_error (ta_rsi closes window) i = Some (Some 100).
Proof.
  intros Hdn Hd.
  destruct (nth_error (ta_rsi_emaup closes window) i) as [up|] eqn:Hup.
  - unfold ta_rsi. rewrite (nth_error_zip_with_intro _ _ _ _ _ _ Hup Hdn).
    rewrite rsi_value_zero_loss by exact Hd. reflexivity.
  - exfalso. apply nth_error_None in Hup.
    assert (Hlt : (i < List.length (ta_rsi_emadn closes window))%nat)
      by (apply nth_error_Some; rewrite Hdn; discriminate).
    rewrite length_ta_rsi_emaup_emadn in Hup. lia.
Qed.

(** C6: for every candle list, every defined value of the RSI(14) series of
    the indicator engine lies in [0, 100] (monotonic, oscillating and flat
    series included), and where the average loss [emadn] is zero the RSI is
    defined and equal to 100. *)
Theorem calculate_rsi_range (candles : list OHLCVCandle) (i : nat) :
  (forall v, nth_error (calculate_rsi (candles_to_dataframe candles) 14) i = Some (Some v) ->
     0 <= v <= 100) /\
  (forall d, nth_error (ta_rsi_emadn (map close (candles_to_dataframe candles)) 14) i
             = Some (Some d) -> d == 0 ->
     nth_error (calculate_rsi (candles_to_dataframe candles) 14) i = Some (Some 100)).
Proof.
  split.
  - intros v. apply ta_rsi_range.
  - intros d. apply ta_rsi_zero_loss.
Qed.

(** A flat series: the average loss is zero and the RSI is 100 from index 13. *)
Example calculate_rsi_flat :
  nth_error (calculate_rsi (candles_of (repeat 7 20)) 14) 13 = Some (Some 100).
Proof. vm_compute. reflexivity. Qed.

(** A falling series: no gain, the RSI is 0. *)
Example calculate_rsi_falling :
  option_map (option_map Qred)
    (nth_error (calculate_rsi (candles_of (map (fun i => inject_Z (100 - Z.of_nat i)) (seq 0 20))) 14) 15)
  = Some (Some 0).
Proof. vm_compute. reflexivity. Qed.

(** ** Bollinger Bands *)

Lemma nth_error_rolling {A : Type} (w : nat) (f : list Q -> A) (xs : list Q)
  (i : nat) (o : option A) :
  nth_error (rolling w f xs) i = Some o ->
  o = if Nat.ltb (S i) w then None else Some (f (window_at w i xs)).
Proof.
  unfold rolling. rewrite nth_error_map, nth_error_seq.
  destruct (Nat.ltb i (List.length xs)); simpl; intros H; [|discriminate].
  injection H as <-. reflexivity.
Qed.

Lemma Q2R_zero : Q2R 0 = 0%R.
Proof. unfold Q2R. simpl. ring. Qed.

(** C7: for every candle list, at every index where the three bands are
    defined and the population variance of the 20 closes of the window is
    nonzero, [bb_lower < bb_middle < bb_upper]. *)
Theorem bollinger_strict_order (candles : list OHLCVCandle) (i : nat) (u m l : R) :
  nth_error (bb_upper (calculate_bollinger_bands (candles_to_dataframe candles))) i
  = Some (Some u) ->
  nth_error (bb_middle (calculate_bollinger_bands (candles_to_dataframe candles))) i
  = Some (Some m) ->
  nth_error (bb_lower (calculate_bollinger_bands (candles_to_dataframe candles))) i
  = Some (Some l) ->
  0 < var_pop (window_at 20 i (map close (candles_to_dataframe candles))) ->
  (l < m < u)%R.
Proof.
  set (xs := map close (candles_to_dataframe candles)).
  intros Hu Hm Hl Hvar.
  unfold calculate_bollinger_bands, calculate_bollinger_bands_with in Hu, Hm, Hl;
    simpl bb_upper in Hu; simpl bb_middle in Hm; simpl bb_lower in Hl.
  fold xs in Hu, Hm, Hl.
  apply nth_error_zip_with in Hu as [a [b [Ha [Hb Hu]]]].
  apply nth_error_zip_with in Hl as [a' [b' [Ha' [Hb' Hl]]]].
  unfold rolling_mean_R in Ha, Ha', Hm. unfold rolling_std in Hb, Hb'.
  rewrite Ha' in Ha; injection Ha as ->. rewrite Hb' in Hb; injection Hb as ->.
  rewrite Hm in Ha'; injection Ha' as <-.
  apply nth_error_rolling in Hm. apply nth_error_rolling in Hb'.
  destruct (Nat.ltb (S i) 20); [discriminate|].
  injection Hm as Hm. subst b.
  simpl in Hu, Hl. injection Hu as ->. injection Hl as ->. subst m.
  assert (Hs : (0 < sqrt (Q2R (var_pop (window_at 20 i xs))))%R).
  { apply sqrt_lt_R0. rewrite <- Q2R_zero. apply Qlt_Rlt. exact Hvar. }
  simpl IZR. lra.
Qed.

Lemma bollinger_strict_order_witness :
  exists u m l,
    nth_error (bb_upper (calculate_bollinger_bands (candles_to_dataframe bb_candles))) 19
    = Some (Some u) /\
    nth_error (bb_middle (calculate_bollinger_bands (candles_to_dataframe bb_candles))) 19
    = Some (Some m) /\
    nth_error (bb_lower (calculate_bollinger_bands (candles_to_dataframe bb_candles))) 19
    = Some (Some l) /\
    0 < var_pop (window_at 20 19 (map close (candles_to_dataframe bb_candles))) /\
    (l < m < u)%R.
Proof.
  do 3 eexists.
  split; [reflexivity|split; [reflexivity|split; [reflexivity|split]]].
  - vm_compute. reflexivity.
  - apply (bollinger_strict_order bb_candles 19);
      [reflexivity|reflexivity|reflexivity|vm_compute; reflexivity].
Defined.

(** ** The crossover strategy *)

Lemma py_min_Qmin (a b : Q) : py_min a b = Qmin a b.
Proof.
  unfold py_min, Qmin, GenericMinMax.gmin, Qlt_bool.
  destruct (Qle_bool a b) eqn:E; simpl.
  - apply Qle_bool_iff in E. destruct (Qcompare_spec a b); auto.
    exfalso. apply (Qlt_not_le b a); assumption.
  - apply Bool.not_true_iff_false in E. rewrite Qle_bool_iff in E.
    apply Qnot_le_lt in E. destruct (Qcompare_spec a b); auto.
    + exfalso. apply (Qlt_not_le b a); [assumption|]. rewrite H; apply Qle_refl.
    + exfalso. apply (Qlt_not_le b a); [assumption|]. apply Qlt_le_weak; assumption.
Qed.

Lemma Qlt_bool_iff (x y : Q) : Qlt_bool x y = true <-> x < y.
Proof.
  unfold Qlt_bool. rewrite Bool.negb_true_iff, <- Bool.not_true_iff_false, Qle_bool_iff.
  split; [apply Qnot_le_lt|apply Qlt_not_le].
Qed.

Lemma nth_zip_with_opt_sub (xs ys : list (option Q)) (i : nat) :
  nth i (zip_with opt_sub xs ys) None = opt_sub (nth i xs None) (nth i ys None).
Proof.
  revert ys i; induction xs as [|x xs IH]; intros [|y ys] [|i]; simpl; auto.
  - destruct x; reflexivity.
  - destruct (nth i xs None); reflexivity.
Qed.

Lemma nth_removelast {A : Type} (l : list A) (j : nat) (d : A) :
  (S j < List.length l)%nat -> nth j (removelast l) d = nth j l d.
Proof.
  revert j; induction l as [|a l IH]; intros j H; simpl in H; [lia|].
  destruct l as [|b l]; [simpl in H; lia|].
  destruct j as [|j]; [reflexivity|].
  change (nth (S j) (a :: removelast (b :: l)) d = nth j (b :: l) d).
  simpl. apply IH. simpl in *. lia.
Qed.

Lemma nth_shift1 (s : list (option Q)) (j : nat) :
  (S j < List.length s)%nat -> nth (S j) (shift1 s) None = nth j s None.
Proof.
  intros H. destruct s as [|x s]; [simpl in H; lia|].
  unfold shift1. change (nth j (removelast (x :: s)) None = nth j (x :: s) None).
  apply nth_removelast. exact H.
Qed.

Lemma length_zip_with {A B C : Type} (f : A -> B -> C) (xs : list A) (ys : list B) :
  List.length xs = List.length ys -> List.length (zip_with f xs ys) = List.length xs.
Proof.
  revert ys; induction xs as [|x xs IH]; intros [|y ys] H; simpl in *; try lia.
  f_equal. apply IH. lia.
Qed.

Lemma length_removelast_cons {A : Type} (x : A) (s : list A) :
  List.length (removelast (x :: s)) = List.length s.
Proof.
  revert x; induction s as [|y s IH]; intros x; [reflexivity|].
  change (S (List.length (removelast (y :: s))) = S (List.length s)).
  rewrite IH. reflexivity.
Qed.

Lemma length_shift1 (s : list (option Q)) : List.length (shift1 s) = List.length s.
Proof.
  destruct s as [|x s]; [reflexivity|]. unfold shift1.
  change (S (List.length (removelast (x :: s))) = S (List.length s)).
  rewrite length_removelast_cons. reflexivity.
Qed.

Definition row_at (df : list OHLCVCandle) (e20 e50 rsi diff diff_prev : list (option Q))
  (i : nat) : Row :=
  mkRow (timestamp (nth i df dummy_candle)) (close (nth i df dummy_candle))
    (nth i e20 None) (nth i e50 None) (nth i rsi None) (nth i diff None)
    (nth i diff_prev None).

Lemma build_rows_row_at (df : list OHLCVCandle) (e20 e50 rsi diff diff_prev : list (option Q)) :
  List.length e20 = List.length df -> List.length e50 = List.length df ->
  List.length rsi = List.length df -> List.length diff = List.length df ->
  List.length diff_prev = List.length df ->
  build_rows df e20 e50 rsi diff diff_prev
  = map (row_at df e20 e50 rsi diff diff_prev) (seq 0 (List.length df)).
Proof.
  revert e20 e50 rsi diff diff_prev.
  induction df as [|c df IH];
    intros [|a e20] [|b e50] [|r rsi] [|d diff] [|p diff_prev] H1 H2 H3 H4 H5;
    simpl in *; try lia; auto.
  f_equal. rewrite IH by lia. rewrite <- seq_shift, map_map. reflexivity.
Qed.

Lemma signal_loop_flat_map (symbol sid : string) (g : nat -> Row)
  (h : nat -> list Signal) (l : list nat) :
  (forall i, In i l -> exists o, row_signal symbol sid (g i) = Ok o /\ opt_list o = h i) ->
  signal_loop symbol sid (map g l) = Ok (flat_map h l).
Proof.
  induction l as [|i l IH]; intros H; simpl; auto.
  destruct (H i (or_introl eq_refl)) as [o [Ho Hh]]. rewrite Ho, <- Hh.
  rewrite IH by (intros j Hj; apply H; right; exact Hj).
  destruct o; reflexivity.
Qed.

Lemma py_min_confidence_valid (x : Q) :
  0 <= x -> Qle_bool 0 (py_min 1 x) && Qle_bool (py_min 1 x) 1 = true.
Proof.
  intros Hx. unfold py_min.
  destruct (Qlt_bool x 1) eqn:E.
  - apply Qlt_bool_iff in E.
    apply andb_true_intro; split; apply Qle_bool_iff; qlra.
  - reflexivity.
Qed.

Lemma buy_confidence_nonneg (r : Q) : Qlt_bool r 70 = true -> 0 <= (1#2) + (70 - r) / 100.
Proof.
  intros H. apply Qlt_bool_iff in H.
  assert (0 <= (70 - r) / 100) by (apply Qle_shift_div_l; [reflexivity|qlra]).
  qlra.
Qed.

Lemma sell_confidence_nonneg (r : Q) : Qlt_bool 30 r = true -> 0 <= (1#2) + (r - 30) / 100.
Proof.
  intros H. apply Qlt_bool_iff in H.
  assert (0 <= (r - 30) / 100) by (apply Qle_shift_div_l; [reflexivity|qlra]).
  qlra.
Qed.

Ltac crossover_case :=
  first
    [ exists None; split; reflexivity
    | exfalso;
      match goal with
      | H1 : Qlt_bool 0 ?d = true, H2 : Qlt_bool ?d 0 = true |- _ =>
          apply Qlt_bool_iff in H1; apply Qlt_bool_iff in H2; qlra
      end
    | match goal with
      | H : Qlt_bool ?r 70 = true |- context [Signal_new _ _ buy ?conf] =>
          unfold Signal_new;
          rewrite (py_min_confidence_valid _ (buy_confidence_nonneg r H));
          eexists; split; [reflexivity|]; simpl; rewrite py_min_Qmin; reflexivity
      | H : Qlt_bool 30 ?r = true |- context [Signal_new _ _ sell ?conf] =>
          unfold Signal_new;
          rewrite (py_min_confidence_valid _ (sell_confidence_nonneg r H));
          eexists; split; [reflexivity|]; simpl; rewrite py_min_Qmin; reflexivity
      end ].

Lemma row_signal_crossover (df : list OHLCVCandle) (symbol : string)
  (e20 e50 rsi : list (option Q)) (i : nat) :
  (1 <= i)%nat -> (i < List.length (zip_with opt_sub e20 e50))%nat ->
  exists o,
    row_signal symbol "ema_crossover_rsi"
      (row_at df e20 e50 rsi (zip_with opt_sub e20 e50)
         (shift1 (zip_with opt_sub e20 e50)) i) = Ok o /\
    opt_list o = crossover_signal_at df symbol e20 e50 rsi i.
Proof.
  intros Hi Hlen. destruct i as [|j]; [lia|].
  unfold row_at, row_signal. cbn [row_ema_20 row_ema_50 row_rsi_14 row_ema_diff
                                  row_ema_diff_prev row_timestamp row_close].
  rewrite nth_shift1 by exact Hlen. rewrite !nth_zip_with_opt_sub.
  unfold crossover_signal_at. replace (S j - 1)%nat with j by lia. unfold ema_diff_at.
  destruct (nth (S j) e20 None) as [a|], (nth (S j) e50 None) as [b|],
    (nth (S j) rsi None) as [r|], (nth j e20 None) as [a0|], (nth j e50 None) as [b0|];
    simpl opt_sub; try (exists None; split; reflexivity).
  unfold classify, nan_le, nan_ge, nan_lt, nan_gt.
  destruct (Qle_bool (a0 - b0) 0) eqn:E1, (Qlt_bool 0 (a - b)) eqn:E2,
    (Qlt_bool r 70) eqn:E3, (Qle_bool 0 (a0 - b0)) eqn:E4,
    (Qlt_bool (a - b) 0) eqn:E5, (Qlt_bool 30 r) eqn:E6;
    cbn [andb]; crossover_case.
Qed.

Lemma length_diff_run (prev : Q) (xs : list Q) :
  List.length (diff_run prev xs) = List.length xs.
Proof. revert prev; induction xs; simpl; intros; auto. Qed.

Lemma length_series_diff (xs : list Q) : List.length (series_diff xs) = List.length xs.
Proof. destruct xs; simpl; rewrite ?length_diff_run; auto. Qed.

Lemma length_calculate_ema (df : list OHLCVCandle) (period : nat) :
  List.length (calculate_ema df period) = List.length df.
Proof.
  unfold calculate_ema, ta_ema. rewrite length_ewm_mean, length_map. reflexivity.
Qed.

Lemma length_calculate_rsi (df : list OHLCVCandle) (period : nat) :
  List.length (calculate_rsi df period) = List.length df.
Proof.
  unfold calculate_rsi, ta_rsi. rewrite length_zip_with by apply length_ta_rsi_emaup_emadn.
  unfold ta_rsi_emaup. rewrite length_ewm_mean, !length_map, length_series_diff, length_map.
  reflexivity.
Qed.

Lemma tl_map_seq {A : Type} (f : nat -> A) (n : nat) :
  tl (map f (seq 0 n)) = map f (seq 1 (n - 1)).
Proof. destruct n; simpl; [reflexivity|]. rewrite Nat.sub_0_r. reflexivity. Qed.

Lemma generate_signals_crossover_eq (candles : list OHLCVCandle) (symbol : string) :
  (50 <= List.length candles)%nat ->
  generate_signals candles symbol "ema_crossover_rsi"
  = Ok (crossover_signals_spec candles symbol).
Proof.
  intros Hlen. unfold generate_signals. rewrite String.eqb_refl.
  unfold generate_ema_crossover_rsi_signals.
  replace (Nat.ltb (List.length candles) 50) with false
    by (symmetry; apply Nat.ltb_ge; lia).
  rewrite candles_to_dataframe_sort. unfold crossover_signals_spec.
  set (df := sort_values_timestamp candles).
  rewrite build_rows_row_at;
    rewrite ?length_shift1, ?length_zip_with, ?length_calculate_ema,
      ?length_calculate_rsi; rewrite ?length_calculate_ema; auto.
  rewrite tl_map_seq.
  apply signal_loop_flat_map. intros i Hi. apply in_seq in Hi.
  apply row_signal_crossover; [lia|].
  rewrite length_zip_with by (rewrite !length_calculate_ema; reflexivity).
  rewrite length_calculate_ema. lia.
Qed.

(** C2: for every candle list of at least 50 candles and every symbol,
    [generate_signals] with ["ema_crossover_rsi"] returns exactly the
    signals of [crossover_signals_spec]: over the series sorted by
    timestamp, a buy signal at [i] when [diff[i-1] <= 0 < diff[i]] and
    [RSI14[i] < 70] with confidence [min(1, 0.5 + (70 - RSI14[i])/100)], a
    sell signal when [diff[i-1] >= 0 > diff[i]] and [RSI14[i] > 30] with
    confidence [min(1, 0.5 + (RSI14[i] - 30)/100)] ([diff = EMA20 - EMA50],
    all values defined), and no other signal. *)
Theorem generate_signals_crossover (candles : list OHLCVCandle) (symbol : string) :
  (50 <= List.length candles)%nat ->
  generate_signals candles symbol "ema_crossover_rsi"
  = Ok (crossover_signals_spec candles symbol).
Proof.
  apply generate_signals_crossover_eq.
Qed.

Lemma generate_signals_crossover_witness :
  (50 <= List.length zigzag_candles)%nat /\
  generate_signals zigzag_candles "BTC/USDT" "ema_crossover_rsi"
  = Ok (crossover_signals_spec zigzag_candles "BTC/USDT").
Proof.
  split; [vm_compute; lia|].
  apply generate_signals_crossover. vm_compute. lia.
Defined.

(** On the zigzag series the strategy emits a sell and then a buy. *)
Example crossover_signals_zigzag :
  map action (crossover_signals_spec zigzag_candles "BTC/USDT") = [sell; buy].
Proof. vm_compute. reflexivity. Qed.

(** ** Rising closes *)

Section EwmOrder.
(** Two smoothing factors, the faster one [a] larger than [b]. *)
Variables a b : Q.
Hypothesis Hab : b < a.
Hypothesis Ha : a <= 1.

(** On a strictly rising input, the faster average stays strictly above
    the slower one and not above the latest input. *)
Lemma ewm_run_fast_above (xs : list Q) (pa pb px : Q) (j : nat) :
  pb <= pa -> pa <= px -> increasing_b (px :: xs) = true ->
  (j < List.length xs)%nat ->
  nth j (ewm_run b pb xs) 0 < nth j (ewm_run a pa xs) 0.
Proof.
  revert pa pb px j; induction xs as [|x xs IH]; intros pa pb px j Hp Hpx Hinc Hj;
    simpl in Hj; [lia|].
  simpl in Hinc. apply andb_prop in Hinc as [Hx Hinc]. apply Qlt_bool_iff in Hx.
  change (nth j (((1 - b) * pb + b * x) :: ewm_run b ((1 - b) * pb + b * x) xs) 0
          < nth j (((1 - a) * pa + a * x) :: ewm_run a ((1 - a) * pa + a * x) xs) 0).
  set (ya := (1 - a) * pa + a * x). set (yb := (1 - b) * pb + b * x).
  assert (F1 : 0 <= (1 - b) * (pa - pb)) by (apply Qmult_le_0_compat; qlra).
  assert (F2 : 0 < (a - b) * (x - pa)) by (apply Qmult_lt_0_compat; qlra).
  assert (F3 : 0 <= (1 - a) * (x - pa)) by (apply Qmult_le_0_compat; qlra).
  assert (E1 : ya - yb == (1 - b) * (pa - pb) + (a - b) * (x - pa))
    by (unfold ya, yb; ring).
  assert (E2 : x - ya == (1 - a) * (x - pa)) by (unfold ya; ring).
  clearbody ya yb.
  set (P1 := (1 - b) * (pa - pb)) in *. set (P2 := (a - b) * (x - pa)) in *.
  set (P3 := (1 - a) * (x - pa)) in *.
  destruct j as [|j]; simpl.
  - qlra.
  - apply (IH ya yb x); try qlra; [exact Hinc|lia].
Qed.
End EwmOrder.

Lemma nth_Some_nth_error {A : Type} (l : list (option A)) (i : nat) (e : A) :
  nth i l None = Some e -> nth_error l i = Some (Some e).
Proof.
  revert i; induction l as [|o l IH]; intros [|i] H; simpl in *;
    [discriminate|discriminate|rewrite H; reflexivity|apply IH; exact H].
Qed.

Lemma ta_ema_defined (xs : list Q) (period i : nat) (e : Q) :
  nth i (ta_ema xs period) None = Some e ->
  (period <= S i)%nat /\ (i < List.length xs)%nat /\
  nth i (ewm_noadjust (ema_alpha period) xs) 0 = e.
Proof.
  intros H. apply nth_Some_nth_error in H.
  unfold ta_ema, ewm_mean in H. rewrite nth_error_mask_min_periods in H.
  destruct (nth_error (ewm_noadjust (ema_alpha period) xs) i) as [y|] eqn:Hy;
    [|discriminate].
  simpl in H. destruct (Nat.ltb_spec (S i) period); [discriminate|].
  injection H as ->. split; [lia|split].
  - rewrite <- (length_ewm_noadjust (ema_alpha period)).
    apply nth_error_Some. rewrite Hy. discriminate.
  - apply nth_error_nth. exact Hy.
Qed.

Lemma ema_alpha_20_50 : 0 < ema_alpha 50 /\ ema_alpha 50 < ema_alpha 20 /\ ema_alpha 20 <= 1.
Proof.
  split; [|split]; vm_compute; first [reflexivity | discriminate].
Qed.

(** On strictly rising closes, wherever EMA20 and EMA50 are both defined,
    EMA20 is strictly above EMA50. *)
Lemma ta_ema_20_above_50 (xs : list Q) (i : nat) (e20 e50 : Q) :
  increasing_b xs = true ->
  nth i (ta_ema xs 20) None = Some e20 -> nth i (ta_ema xs 50) None = Some e50 ->
  e50 < e20.
Proof.
  intros Hinc H20 H50.
  apply ta_ema_defined in H20 as [_ [Hlt20 <-]].
  apply ta_ema_defined in H50 as [Hp [_ <-]].
  destruct xs as [|x0 xs]; [simpl in Hlt20; lia|].
  destruct i as [|j]; [lia|]. simpl in Hlt20.
  simpl ewm_noadjust. change (nth j (ewm_run (ema_alpha 50) x0 xs) 0
                              < nth j (ewm_run (ema_alpha 20) x0 xs) 0).
  destruct ema_alpha_20_50 as [H1 [H2 H3]].
  apply (ewm_run_fast_above (ema_alpha 20) (ema_alpha 50) H2 H3 xs x0 x0 x0 j);
    [apply Qle_refl|apply Qle_refl|exact Hinc|lia].
Qed.

Lemma crossover_signals_spec_no_sell (candles : list OHLCVCandle) (symbol : string) :
  increasing_b (map close (sort_values_timestamp candles)) = true ->
  Forall (fun s => action s <> sell) (crossover_signals_spec candles symbol).
Proof.
  intros Hinc. apply Forall_forall. intros s Hs.
  unfold crossover_signals_spec in Hs. apply in_flat_map in Hs as [i [_ Hs]].
  unfold crossover_signal_at in Hs.
  destruct (ema_diff_at _ _ (i - 1)) as [dp|]; [|destruct Hs].
  destruct (nth i (calculate_ema (sort_values_timestamp candles) 20) None) as [a|] eqn:Ha;
    [|destruct Hs].
  destruct (nth i (calculate_ema (sort_values_timestamp candles) 50) None) as [b|] eqn:Hb;
    [|destruct Hs].
  destruct (nth i (calculate_rsi (sort_values_timestamp candles) 14) None) as [r|];
    [|destruct Hs].
  destruct (Qle_bool dp 0 && Qlt_bool 0 (a - b) && Qlt_bool r 70).
  - destruct Hs as [<-|[]]. simpl. discriminate.
  - destruct (Qle_bool 0 dp && Qlt_bool (a - b) 0 && Qlt_bool 30 r) eqn:E; [|destruct Hs].
    exfalso. apply andb_prop in E as [E _]. apply andb_prop in E as [_ E].
    apply Qlt_bool_iff in E.
    pose proof (ta_ema_20_above_50 _ _ _ _ Hinc Ha Hb). qlra.
Qed.

(** C9: for every list of 100 candles whose closes, in timestamp order, are
    strictly increasing, [generate_signals] with ["ema_crossover_rsi"]
    returns signals none of which is a sell. *)
Theorem generate_signals_uptrend_no_sell (candles : list OHLCVCandle) (symbol : string) :
  List.length candles = 100%nat ->
  increasing_b (map close (sort_values_timestamp candles)) = true ->
  exists sigs,
    generate_signals candles symbol "ema_crossover_rsi" = Ok sigs /\
    Forall (fun s => action s <> sell) sigs.
Proof.
  intros Hlen Hinc. exists (crossover_signals_spec candles symbol). split.
  - apply generate_signals_crossover_eq. lia.
  - apply crossover_signals_spec_no_sell. exact Hinc.
Qed.

Lemma generate_signals_uptrend_no_sell_witness :
  List.length uptrend_candles = 100%nat /\
  increasing_b (map close (sort_values_timestamp uptrend_candles)) = true /\
  exists sigs,
    generate_signals uptrend_candles "BTC/USDT" "ema_crossover_rsi" = Ok sigs /\
    Forall (fun s => action s <> sell) sigs.
Proof.
  split; [vm_compute; reflexivity|split; [vm_compute; reflexivity|]].
  apply generate_signals_uptrend_no_sell; vm_compute; reflexivity.
Defined.


(** X1: [POST /internal/signals] never reaches the strategy: the router
    calls [get_candles] with a [provider] keyword that the client method
    does not accept, so for every payload and every market-data response
    the endpoint answers HTTP 500 with the [TypeError] message. *)
Theorem generate_signals_endpoint_type_error (payload : GenerateSignalsRequest)
  (response : pyresult (list OHLCVCandle)) :
  SignalsRouter.generate_signals_endpoint payload response
  = HTTPException 500
      "MarketDataClient.get_candles() got an unexpected keyword argument 'provider'"%string.
Proof. reflexivity. Qed.

(** X2: [POST /internal/indicators] likewise always answers HTTP 500
    with the [TypeError] raised by the [provider] keyword of the
    [get_candles] call, whatever the payload and the response. *)
Theorem calculate_indicators_endpoint_type_error (payload : CalculateIndicatorsRequest)
  (response : pyresult (list OHLCVCandle)) :
  IndicatorsRouter.calculate_indicators_endpoint payload response
  = HTTPException 500
      "MarketDataClient.get_candles() got an unexpected keyword argument 'provider'"%string.
Proof. reflexivity. Qed.


Lemma py_min_one_above_half (x : Q) :
  1#2 < x -> 1#2 < py_min 1 x <= 1.
Proof.
  intros Hx. unfold py_min.
  destruct (Qlt_bool x 1) eqn:E.
  - apply Qlt_bool_iff in E. split; qlra.
  - split; [reflexivity|apply Qle_refl].
Qed.

Lemma classify_cases (d p : option Q) (r : Q) :
  fst (classify d p r) = hold \/
  (fst (classify d p r) = buy /\ r < 70 /\
   snd (classify d p r) = py_min 1 ((1#2) + (70 - r) / 100)) \/
  (fst (classify d p r) = sell /\ 30 < r /\
   snd (classify d p r) = py_min 1 ((1#2) + (r - 30) / 100)).
Proof.
  unfold classify.
  destruct (nan_le p 0 && nan_gt d 0).
  - destruct (Qlt_bool r 70) eqn:E; [|left; reflexivity].
    apply Qlt_bool_iff in E. right; left. auto.
  - destruct (nan_ge p 0 && nan_lt d 0); [|left; reflexivity].
    destruct (Qlt_bool 30 r) eqn:E; [|left; reflexivity].
    apply Qlt_bool_iff in E. right; right. auto.
Qed.

Definition emitted_ok (symbol sid : string) (s : Signal) : Prop :=
  sig_symbol s = symbol /\ strategy_id s = sid /\
  (action s = buy \/ action s = sell) /\ 1#2 < confidence s <= 1.

Lemma row_signal_ok (symbol sid : string) (row : Row) :
  exists o, row_signal symbol sid row = Ok o /\
    forall s, o = Some s -> emitted_ok symbol sid s.
Proof.
  unfold row_signal.
  destruct (row_ema_20 row) as [e20|]; [|exists None; split; [reflexivity|discriminate]].
  destruct (row_ema_50 row) as [e50|]; [|exists None; split; [reflexivity|discriminate]].
  destruct (row_rsi_14 row) as [r|]; [|exists None; split; [reflexivity|discriminate]].
  pose proof (classify_cases (row_ema_diff row) (row_ema_diff_prev row) r) as Hc.
  destruct (classify (row_ema_diff row) (row_ema_diff_prev row) r) as [act conf].
  simpl in Hc.
  destruct Hc as [->|[[-> [Hr ->]]|[-> [Hr ->]]]].
  - exists None; split; [reflexivity|discriminate].
  - assert (Hb : 1#2 < (1#2) + (70 - r) / 100)
      by (assert (0 < (70 - r) / 100) by (apply Qlt_shift_div_l; [reflexivity|qlra]); qlra).
    pose proof (py_min_one_above_half _ Hb) as [H1 H2].
    unfold Signal_new.
    replace (Qle_bool 0 (py_min 1 ((1#2) + (70 - r) / 100))
             && Qle_bool (py_min 1 ((1#2) + (70 - r) / 100)) 1) with true
      by (symmetry; apply andb_true_intro; split; apply Qle_bool_iff; qlra).
    eexists; split; [reflexivity|]. intros s Hs; injection Hs as <-.
    repeat split; simpl; auto.
  - assert (Hb : 1#2 < (1#2) + (r - 30) / 100)
      by (assert (0 < (r - 30) / 100) by (apply Qlt_shift_div_l; [reflexivity|qlra]); qlra).
    pose proof (py_min_one_above_half _ Hb) as [H1 H2].
    unfold Signal_new.
    replace (Qle_bool 0 (py_min 1 ((1#2) + (r - 30) / 100))
             && Qle_bool (py_min 1 ((1#2) + (r - 30) / 100)) 1) with true
      by (symmetry; apply andb_true_intro; split; apply Qle_bool_iff; qlra).
    eexists; split; [reflexivity|]. intros s Hs; injection Hs as <-.
    repeat split; simpl; auto.
Qed.

Lemma signal_loop_ok (symbol sid : string) (rows : list Row) :
  exists sigs, signal_loop symbol sid rows = Ok sigs /\
    Forall (emitted_ok symbol sid) sigs.
Proof.
  induction rows as [|row rows [sigs [Hl Hf]]]; simpl.
  - exists []. auto.
  - destruct (row_signal_ok symbol sid row) as [o [Ho Hs]]. rewrite Ho.
    destruct o as [s|].
    + rewrite Hl. exists (s :: sigs). split; [reflexivity|]. constructor; auto.
    + exists sigs. auto.
Qed.

(** X3: [generate_ema_crossover_rsi_signals] never raises (its
    [Signal(...)] validation always succeeds), and every signal it returns
    carries the requested symbol and strategy id, is a buy or a sell
    (never a hold), and has a confidence in the interval (0.5, 1]. *)
Theorem generate_ema_crossover_rsi_signals_emitted (candles : list OHLCVCandle)
  (symbol sid : string) :
  exists sigs,
    generate_ema_crossover_rsi_signals candles symbol sid = Ok sigs /\
    Forall (fun s => sig_symbol s = symbol /\ strategy_id s = sid /\
                     (action s = buy \/ action s = sell) /\
                     1#2 < confidence s <= 1) sigs.
Proof.
  unfold generate_ema_crossover_rsi_signals.
  destruct (Nat.ltb (List.length candles) 50).
  - exists []. split; [reflexivity|constructor].
  - apply signal_loop_ok.
Qed.


Lemma generate_signals_spec_or_empty (candles : list OHLCVCandle) (symbol : string) :
  (List.length candles < 50)%nat /\
  generate_signals candles symbol "ema_crossover_rsi" = Ok [] \/
  (50 <= List.length candles)%nat /\
  generate_signals candles symbol "ema_crossover_rsi"
  = Ok (crossover_signals_spec candles symbol).
Proof.
  destruct (Nat.ltb_spec (List.length candles) 50) as [Hlt|Hge].
  - left. split; [exact Hlt|]. unfold generate_signals, generate_ema_crossover_rsi_signals.
    rewrite String.eqb_refl. apply Nat.ltb_lt in Hlt. rewrite Hlt. reflexivity.
  - right. split; [exact Hge|]. apply generate_signals_crossover_eq. exact Hge.
Qed.

Lemma crossover_signal_at_cases (df : list OHLCVCandle) (symbol : string)
  (e20 e50 rsi : list (option Q)) (i : nat) (s : Signal) :
  In s (crossover_signal_at df symbol e20 e50 rsi i) ->
  exists dp a b r,
    ema_diff_at e20 e50 (i - 1) = Some dp /\
    nth i e20 None = Some a /\ nth i e50 None = Some b /\ nth i rsi None = Some r /\
    sig_symbol s = symbol /\ strategy_id s = "ema_crossover_rsi"%string /\
    sig_timestamp s = timestamp (nth i df dummy_candle) /\
    price s = close (nth i df dummy_candle) /\
    metadata s = [("ema_20", a); ("ema_50", b); ("rsi_14", r)]%string /\
    ((action s = buy /\ b < a /\ r < 70 /\
      confidence s = Qmin 1 ((1#2) + (70 - r) / 100)) \/
     (action s = sell /\ a < b /\ 30 < r /\
      confidence s = Qmin 1 ((1#2) + (r - 30) / 100))).
Proof.
  unfold crossover_signal_at.
  destruct (ema_diff_at e20 e50 (i - 1)) as [dp|]; [|intros []].
  destruct (nth i e20 None) as [a|]; [|intros []].
  destruct (nth i e50 None) as [b|]; [|intros []].
  destruct (nth i rsi None) as [r|]; [|intros []].
  intros Hs. exists dp, a, b, r.
  do 4 (split; [reflexivity|]).
  destruct (Qle_bool dp 0 && Qlt_bool 0 (a - b) && Qlt_bool r 70) eqn:E1.
  - destruct Hs as [<-|[]]. simpl. do 5 (split; [reflexivity|]). left.
    apply andb_prop in E1 as [E1 E3]. apply andb_prop in E1 as [_ E2].
    apply Qlt_bool_iff in E2. apply Qlt_bool_iff in E3.
    split; [reflexivity|split; [qlra|split; [exact E3|reflexivity]]].
  - destruct (Qle_bool 0 dp && Qlt_bool (a - b) 0 && Qlt_bool 30 r) eqn:E2; [|destruct Hs].
    destruct Hs as [<-|[]]. simpl. do 5 (split; [reflexivity|]). right.
    apply andb_prop in E2 as [E2 E3]. apply andb_prop in E2 as [_ E4].
    apply Qlt_bool_iff in E4. apply Qlt_bool_iff in E3.
    split; [reflexivity|split; [qlra|split; [exact E3|reflexivity]]].
Qed.

Lemma length_crossover_signal_at (df : list OHLCVCandle) (symbol : string)
  (e20 e50 rsi : list (option Q)) (i : nat) :
  (List.length (crossover_signal_at df symbol e20 e50 rsi i) <= 1)%nat.
Proof.
  unfold crossover_signal_at.
  destruct (ema_diff_at e20 e50 (i - 1)), (nth i e20 None), (nth i e50 None),
    (nth i rsi None); simpl; try lia.
  destruct (_ && _ && _); simpl; [lia|].
  destruct (_ && _ && _); simpl; lia.
Qed.

(** No signal before index 50: EMA50 is not yet defined at [i - 1]. *)
Lemma crossover_signal_at_warmup (candles : list OHLCVCandle) (symbol : string) (i : nat) :
  (i < 50)%nat ->
  crossover_signal_at (sort_values_timestamp candles) symbol
    (calculate_ema (sort_values_timestamp candles) 20)
    (calculate_ema (sort_values_timestamp candles) 50)
    (calculate_rsi (sort_values_timestamp candles) 14) i = [].
Proof.
  intros Hi. unfold crossover_signal_at, ema_diff_at.
  destruct (nth (i - 1) (calculate_ema (sort_values_timestamp candles) 20) None); [|reflexivity].
  destruct (nth (i - 1) (calculate_ema (sort_values_timestamp candles) 50) None) as [b|] eqn:Hb;
    [|reflexivity].
  unfold calculate_ema in Hb. apply ta_ema_defined in Hb as [Hp _]. lia.
Qed.

Lemma in_crossover_signals_spec (candles : list OHLCVCandle) (symbol : string) (s : Signal) :
  In s (crossover_signals_spec candles symbol) ->
  exists i, (50 <= i < List.length candles)%nat /\
    In s (crossover_signal_at (sort_values_timestamp candles) symbol
            (calculate_ema (sort_values_timestamp candles) 20)
            (calculate_ema (sort_values_timestamp candles) 50)
            (calculate_rsi (sort_values_timestamp candles) 14) i).
Proof.
  unfold crossover_signals_spec. intros Hs. apply in_flat_map in Hs as [i [Hi Hs]].
  apply in_seq in Hi.
  rewrite (Permutation_length (sort_values_timestamp_perm candles)) in Hi.
  exists i. split; [|exact Hs].
  destruct (Nat.ltb_spec i 50) as [Hlt|]; [|lia].
  rewrite crossover_signal_at_warmup in Hs by exact Hlt. destruct Hs.
Qed.

(** X4: every signal of the crossover strategy carries the metadata
    [{"ema_20": a, "ema_50": b, "rsi_14": r}] in that order, with
    [0 <= r <= 100]; a buy has [b < a], [r < 70] and confidence
    [min(1, 0.5 + (70 - r)/100)], a sell has [a < b], [30 < r] and
    confidence [min(1, 0.5 + (r - 30)/100)]. *)
Theorem generate_signals_metadata (candles : list OHLCVCandle) (symbol : string) :
  exists sigs,
    generate_signals candles symbol "ema_crossover_rsi" = Ok sigs /\
    Forall (fun s => exists a b r,
      metadata s = [("ema_20", a); ("ema_50", b); ("rsi_14", r)]%string /\
      0 <= r <= 100 /\
      ((action s = buy /\ b < a /\ r < 70 /\
        confidence s = Qmin 1 ((1#2) + (70 - r) / 100)) \/
       (action s = sell /\ a < b /\ 30 < r /\
        confidence s = Qmin 1 ((1#2) + (r - 30) / 100)))) sigs.
Proof.
  destruct (generate_signals_spec_or_empty candles symbol) as [[_ ->]|[_ ->]].
  - exists []. split; [reflexivity|constructor].
  - eexists; split; [reflexivity|]. apply Forall_forall. intros s Hs.
    apply in_crossover_signals_spec in Hs as [i [_ Hs]].
    apply crossover_signal_at_cases in Hs
      as [dp [a [b [r [_ [_ [_ [Hr [_ [_ [_ [_ [Hmd Hcase]]]]]]]]]]]]].
    exists a, b, r. split; [exact Hmd|split; [|exact Hcase]].
    apply (ta_rsi_range (map close (sort_values_timestamp candles)) 14 i r).
    apply nth_Some_nth_error. exact Hr.
Qed.

Lemma length_flat_map_warmup (f : nat -> list Signal) (a k : nat) :
  (forall i, (i < 50)%nat -> f i = []) ->
  (forall i, (List.length (f i) <= 1)%nat) ->
  (List.length (flat_map f (seq a k)) <= (a + k) - Nat.max a 50)%nat.
Proof.
  intros H0 H1. revert a; induction k as [|k IH]; intros a; simpl; [lia|].
  rewrite length_app. specialize (IH (S a)).
  destruct (Nat.ltb_spec a 50) as [Hlt|Hge].
  - rewrite (H0 a Hlt). simpl. lia.
  - specialize (H1 a). lia.
Qed.

(** X5: the crossover strategy emits at most [len(candles) - 50]
    signals, and each one is taken at a position [i >= 50] of the
    timestamp-sorted candles: its timestamp and price are that candle's
    timestamp and close. *)
Theorem generate_signals_warmup (candles : list OHLCVCandle) (symbol : string) :
  exists sigs,
    generate_signals candles symbol "ema_crossover_rsi" = Ok sigs /\
    (List.length sigs <= List.length candles - 50)%nat /\
    Forall (fun s => exists i, (50 <= i < List.length candles)%nat /\
      sig_timestamp s = timestamp (nth i (sort_values_timestamp candles) dummy_candle) /\
      price s = close (nth i (sort_values_timestamp candles) dummy_candle)) sigs.
Proof.
  destruct (generate_signals_spec_or_empty candles symbol) as [[_ ->]|[Hlen ->]].
  - exists []. split; [reflexivity|split; [simpl; lia|constructor]].
  - eexists; split; [reflexivity|split].
    + unfold crossover_signals_spec.
      rewrite (Permutation_length (sort_values_timestamp_perm candles)).
      eapply Nat.le_trans; [apply length_flat_map_warmup|].
      * intros i Hi. apply crossover_signal_at_warmup. exact Hi.
      * intros i. apply length_crossover_signal_at.
      * lia.
    + apply Forall_forall. intros s Hs.
      apply in_crossover_signals_spec in Hs as [i [Hi Hs]].
      apply crossover_signal_at_cases in Hs
        as [dp [a [b [r [_ [_ [_ [_ [_ [_ [Hts [Hp _]]]]]]]]]]]].
      exists i. auto.
Qed.

Lemma StronglySorted_nth {A : Type} (Rel : A -> A -> Prop) (l : list A) (d : A) (i j : nat) :
  StronglySorted Rel l -> (i < j < List.length l)%nat -> Rel (nth i l d) (nth j l d).
Proof.
  intros H; revert i j; induction H as [|x l Hs IH Hf]; intros i j Hij; simpl in Hij; [lia|].
  destruct i as [|i], j as [|j]; try lia.
  - simpl. rewrite Forall_forall in Hf. apply Hf, nth_In. lia.
  - simpl. apply IH. lia.
Qed.

Lemma flat_map_seq_sorted (f : nat -> list Signal) (g : nat -> Z) (a k : nat) :
  (forall i s, In s (f i) -> sig_timestamp s = g i) ->
  (forall i, (List.length (f i) <= 1)%nat) ->
  (forall i j, (a <= i <= j)%nat -> (j < a + k)%nat -> (g i <= g j)%Z) ->
  StronglySorted Z.le (map sig_timestamp (flat_map f (seq a k))).
Proof.
  intros Hg H1. revert a; induction k as [|k IH]; intros a Hmono; simpl; [constructor|].
  assert (Hrest : StronglySorted Z.le (map sig_timestamp (flat_map f (seq (S a) k))))
    by (apply IH; intros i j Hi Hj; apply Hmono; lia).
  specialize (H1 a). specialize (Hg a) as Hga.
  destruct (f a) as [|s [|s' l]] eqn:Hfa; simpl in H1 |- *; [exact Hrest| |lia].
  constructor; [exact Hrest|].
  apply Forall_forall. intros t Ht. apply in_map_iff in Ht as [s2 [<- Hs2]].
  apply in_flat_map in Hs2 as [j [Hj Hs2]]. apply in_seq in Hj.
  rewrite (Hga s (or_introl eq_refl)), (Hg j s2 Hs2). apply Hmono; lia.
Qed.

(** X6: the signals of the crossover strategy come out in ascending
    timestamp order, whatever the order of the input candles. *)
Theorem generate_signals_sorted (candles : list OHLCVCandle) (symbol : string) :
  exists sigs,
    generate_signals candles symbol "ema_crossover_rsi" = Ok sigs /\
    Sorted Z.le (map sig_timestamp sigs).
Proof.
  destruct (generate_signals_spec_or_empty candles symbol) as [[_ ->]|[_ ->]].
  - exists []. split; [reflexivity|constructor].
  - eexists; split; [reflexivity|]. apply StronglySorted_Sorted.
    unfold crossover_signals_spec.
    apply flat_map_seq_sorted with
      (g := fun i => timestamp (nth i (sort_values_timestamp candles) dummy_candle)).
    + intros i s Hs. apply crossover_signal_at_cases in Hs
        as [dp [a [b [r [_ [_ [_ [_ [_ [_ [Hts _]]]]]]]]]]]. exact Hts.
    + intros i. apply length_crossover_signal_at.
    + intros i j Hij Hj.
      assert (HS : StronglySorted timestamp_le (sort_values_timestamp candles)).
      { apply Sorted_StronglySorted; [|apply sort_values_timestamp_sorted].
        intros x y z; unfold timestamp_le; lia. }
      destruct (Nat.eq_dec i j) as [->|Hne]; [lia|].
      apply (StronglySorted_nth timestamp_le _ dummy_candle i j HS). lia.
Qed.


Lemma ewm_run_bounds (alpha prev lo hi : Q) (xs : list Q) (j : nat) :
  0 <= alpha <= 1 -> lo <= prev <= hi ->
  Forall (fun x => lo <= x <= hi) (firstn (S j) xs) -> (j < List.length xs)%nat ->
  lo <= nth j (ewm_run alpha prev xs) 0 <= hi.
Proof.
  intros [Ha0 Ha1]. revert prev j; induction xs as [|x xs IH]; intros prev j Hp Hf Hj;
    simpl in Hj; [lia|].
  simpl in Hf. inversion Hf as [|x' l' Hx Hf']; subst.
  assert (Hy : lo <= (1 - alpha) * prev + alpha * x <= hi).
  { assert (F1 : 0 <= (1 - alpha) * (prev - lo)) by (apply Qmult_le_0_compat; qlra).
    assert (F2 : 0 <= alpha * (x - lo)) by (apply Qmult_le_0_compat; qlra).
    assert (F3 : 0 <= (1 - alpha) * (hi - prev)) by (apply Qmult_le_0_compat; qlra).
    assert (F4 : 0 <= alpha * (hi - x)) by (apply Qmult_le_0_compat; qlra).
    assert (E1 : (1 - alpha) * prev + alpha * x - lo
                 == (1 - alpha) * (prev - lo) + alpha * (x - lo)) by ring.
    assert (E2 : hi - ((1 - alpha) * prev + alpha * x)
                 == (1 - alpha) * (hi - prev) + alpha * (hi - x)) by ring.
    set (Y := (1 - alpha) * prev + alpha * x) in *.
    set (P1 := (1 - alpha) * (prev - lo)) in *. set (P2 := alpha * (x - lo)) in *.
    set (P3 := (1 - alpha) * (hi - prev)) in *. set (P4 := alpha * (hi - x)) in *.
    qlra. }
  destruct j as [|j]; simpl; [exact Hy|].
  apply IH; [exact Hy| |lia].
  destruct xs; simpl in *; [constructor|]. exact Hf'.
Qed.

Lemma ewm_noadjust_bounds (alpha lo hi : Q) (xs : list Q) (i : nat) :
  0 <= alpha <= 1 ->
  Forall (fun x => lo <= x <= hi) (firstn (S i) xs) -> (i < List.length xs)%nat ->
  lo <= nth i (ewm_noadjust alpha xs) 0 <= hi.
Proof.
  intros Ha Hf Hi. destruct xs as [|x0 xs]; simpl in Hi; [lia|].
  simpl in Hf. inversion Hf as [|x' l' Hx Hf']; subst.
  destruct i as [|j]; simpl; [exact Hx|].
  apply ewm_run_bounds; [exact Ha|exact Hx|exact Hf'|lia].
Qed.

Lemma ema_alpha_range (period : nat) : (1 <= period)%nat -> 0 <= ema_alpha period <= 1.
Proof.
  intros Hp. unfold ema_alpha, Q_of_nat.
  assert (Hw : 1 <= inject_Z (Z.of_nat period)).
  { change 1 with (inject_Z 1). rewrite <- Zle_Qle. lia. }
  split.
  - apply Qle_shift_div_l; qlra.
  - apply Qle_shift_div_r; qlra.
Qed.

Lemma calculate_ema_bounds (df : list OHLCVCandle) (period i : nat) (lo hi e : Q) :
  (1 <= period)%nat ->
  Forall (fun c => lo <= close c <= hi) (firstn (S i) df) ->
  nth i (calculate_ema df period) None = Some e ->
  lo <= e <= hi.
Proof.
  intros Hp Hf He. unfold calculate_ema in He.
  apply ta_ema_defined in He as [_ [Hi <-]].
  apply ewm_noadjust_bounds; [apply ema_alpha_range; exact Hp| |exact Hi].
  rewrite firstn_map. apply Forall_map. exact Hf.
Qed.

(** X7: for a period of at least 1, every defined EMA value at index
    [i] lies between the lowest and the highest close of the rows
    [0..i]. *)
Theorem calculate_ema_within_closes (df : list OHLCVCandle) (period i : nat) (lo hi e : Q) :
  (1 <= period)%nat ->
  Forall (fun c => lo <= close c <= hi) (firstn (S i) df) ->
  nth i (calculate_ema df period) None = Some e ->
  lo <= e <= hi.
Proof. apply calculate_ema_bounds. Qed.

Lemma calculate_ema_within_closes_witness :
  exists e,
    (1 <= 20)%nat /\
    Forall (fun c => 7 <= close c <= 7) (firstn (S 30) flat_candles) /\
    nth 30 (calculate_ema flat_candles 20) None = Some e /\
    7 <= e <= 7.
Proof.
  assert (Hf : Forall (fun c => 7 <= close c <= 7) (firstn (S 30) flat_candles)).
  { apply Forall_forall. intros c Hc. vm_compute in Hc.
    repeat (destruct Hc as [<-|Hc]; [split; apply Qle_refl|]); destruct Hc. }
  destruct (nth 30 (calculate_ema flat_candles 20) None) as [e|] eqn:He;
    [|vm_compute in He; discriminate].
  exists e. split; [lia|split; [exact Hf|split; [reflexivity|]]].
  apply (calculate_ema_within_closes flat_candles 20 30 7 7 e); [lia|exact Hf|exact He].
Defined.

Lemma flat_map_all_nil {A B : Type} (f : A -> list B) (l : list A) :
  (forall a, In a l -> f a = []) -> flat_map f l = [].
Proof.
  induction l as [|a l IH]; intros H; simpl; [reflexivity|].
  rewrite (H a (or_introl eq_refl)). apply IH. intros b Hb. apply H. right; exact Hb.
Qed.

Lemma In_firstn {A : Type} (n : nat) (l : list A) (x : A) :
  In x (firstn n l) -> In x l.
Proof.
  intros H. rewrite <- (firstn_skipn n l). apply in_or_app. left; exact H.
Qed.

Lemma Forall_firstn {A : Type} (P : A -> Prop) (n : nat) (l : list A) :
  Forall P l -> Forall P (firstn n l).
Proof.
  rewrite !Forall_forall. intros H x Hx. apply H. eapply In_firstn; exact Hx.
Qed.

(** X8: when all closes are equal the crossover strategy returns no
    signal: both EMAs equal the common close, so their difference never
    turns positive or negative and no crossover is seen. *)
Theorem generate_signals_flat (candles : list OHLCVCandle) (symbol : string) (x : Q) :
  Forall (fun c => close c == x) candles ->
  generate_signals candles symbol "ema_crossover_rsi" = Ok [].
Proof.
  intros Hflat.
  destruct (generate_signals_spec_or_empty candles symbol) as [[_ ->]|[_ ->]]; [reflexivity|].
  f_equal. unfold crossover_signals_spec.
  set (df := sort_values_timestamp candles).
  assert (Hdf : Forall (fun c => x <= close c <= x) df).
  { apply (Permutation_Forall (Permutation_sym (sort_values_timestamp_perm candles))).
    eapply Forall_impl; [|exact Hflat]. intros c Hc; simpl in Hc. split; qlra. }
  apply flat_map_all_nil. intros i _.
  unfold crossover_signal_at.
  destruct (ema_diff_at _ _ (i - 1)) as [dp|]; [|reflexivity].
  destruct (nth i (calculate_ema df 20) None) as [a|] eqn:Ha; [|reflexivity].
  destruct (nth i (calculate_ema df 50) None) as [b|] eqn:Hb; [|reflexivity].
  destruct (nth i (calculate_rsi df 14) None) as [r|]; [|reflexivity].
  pose proof (calculate_ema_bounds df 20 i x x a ltac:(lia) (Forall_firstn _ _ _ Hdf) Ha) as HA.
  pose proof (calculate_ema_bounds df 50 i x x b ltac:(lia) (Forall_firstn _ _ _ Hdf) Hb) as HB.
  replace (Qlt_bool 0 (a - b)) with false
    by (symmetry; apply Bool.not_true_iff_false; rewrite Qlt_bool_iff; qlra).
  replace (Qlt_bool (a - b) 0) with false
    by (symmetry; apply Bool.not_true_iff_false; rewrite Qlt_bool_iff; qlra).
  rewrite !Bool.andb_false_r, !Bool.andb_false_l. reflexivity.
Qed.

Lemma generate_signals_flat_witness :
  Forall (fun c => close c == 7) flat_candles /\
  generate_signals flat_candles "BTC/USDT" "ema_crossover_rsi" = Ok [].
Proof.
  assert (Hf : Forall (fun c => close c == 7) flat_candles).
  { apply Forall_forall. intros c Hc. vm_compute in Hc.
    repeat (destruct Hc as [<-|Hc]; [reflexivity|]); destruct Hc. }
  split; [exact Hf|]. apply (generate_signals_flat flat_candles "BTC/USDT" 7). exact Hf.
Defined.


Lemma nth_of_nth_error {A : Type} (l : list (option A)) (i : nat) (o : option A) :
  nth_error l i = Some o -> nth i l None = o.
Proof. intros H. apply nth_error_nth. exact H. Qed.

Lemma nth_error_ewm_mean (alpha : Q) (m : nat) (xs : list Q) (i : nat) :
  (i < List.length xs)%nat ->
  exists y, nth_error (ewm_mean alpha m xs) i
            = Some (if Nat.ltb (S i) m then None else Some y).
Proof.
  intros Hi. unfold ewm_mean. rewrite nth_error_mask_min_periods.
  destruct (nth_error (ewm_noadjust alpha xs) i) as [y|] eqn:Hy.
  - exists y. reflexivity.
  - apply nth_error_None in Hy. rewrite length_ewm_noadjust in Hy. lia.
Qed.

Lemma calculate_ema_none_iff (df : list OHLCVCandle) (period i : nat) :
  (i < List.length df)%nat ->
  nth i (calculate_ema df period) None = None <-> (S i < period)%nat.
Proof.
  intros Hi. unfold calculate_ema, ta_ema.
  destruct (nth_error_ewm_mean (ema_alpha period) period (map close df) i)
    as [y Hy]; [rewrite length_map; exact Hi|].
  rewrite (nth_of_nth_error _ _ _ Hy).
  destruct (Nat.ltb_spec (S i) period); split; intros; auto; try discriminate; lia.
Qed.

(** X9: on the rows of a frame, the EMA of a period [p >= 1] is NaN
    exactly at the first [p - 1] rows and defined from row [p - 1] on. *)
Theorem calculate_ema_warmup (df : list OHLCVCandle) (period i : nat) :
  (1 <= period)%nat -> (i < List.length df)%nat ->
  nth i (calculate_ema df period) None = None <-> (S i < period)%nat.
Proof. intros _. apply calculate_ema_none_iff. Qed.

Lemma calculate_ema_warmup_witness :
  (1 <= 20)%nat /\ (18 < List.length sixty_candles)%nat /\
  (nth 18 (calculate_ema sixty_candles 20) None = None <-> (S 18 < 20)%nat).
Proof.
  split; [lia|split; [vm_compute; lia|]].
  apply calculate_ema_warmup; [lia|vm_compute; lia].
Defined.

Lemma calculate_rsi_none_iff (df : list OHLCVCandle) (period i : nat) :
  (i < List.length df)%nat ->
  nth i (calculate_rsi df period) None = None <-> (S i < period)%nat.
Proof.
  intros Hi. unfold calculate_rsi, ta_rsi, ta_rsi_emaup, ta_rsi_emadn.
  assert (Hl : (i < List.length (map up_direction (series_diff (map close df))))%nat)
    by (rewrite length_map, length_series_diff, length_map; exact Hi).
  assert (Hl' : (i < List.length (map down_direction (series_diff (map close df))))%nat)
    by (rewrite length_map, length_series_diff, length_map; exact Hi).
  destruct (nth_error_ewm_mean (1 / Q_of_nat period) period _ i Hl) as [u Hu].
  destruct (nth_error_ewm_mean (1 / Q_of_nat period) period _ i Hl') as [d Hd].
  rewrite (nth_of_nth_error _ _ _ (nth_error_zip_with_intro _ _ _ _ _ _ Hu Hd)).
  destruct (Nat.ltb_spec (S i) period); simpl.
  - split; intros; auto.
  - destruct (Qeq_bool d 0); split; intros; try discriminate; lia.
Qed.

(** X10: on the rows of a frame, the RSI of a window [w >= 1] is NaN
    exactly at the first [w - 1] rows and defined from row [w - 1] on. *)
Theorem calculate_rsi_warmup (df : list OHLCVCandle) (period i : nat) :
  (1 <= period)%nat -> (i < List.length df)%nat ->
  nth i (calculate_rsi df period) None = None <-> (S i < period)%nat.
Proof. intros _. apply calculate_rsi_none_iff. Qed.

Lemma calculate_rsi_warmup_witness :
  (1 <= 14)%nat /\ (13 < List.length sixty_candles)%nat /\
  (nth 13 (calculate_rsi sixty_candles 14) None = None <-> (S 13 < 14)%nat).
Proof.
  split; [lia|split; [vm_compute; lia|]].
  apply calculate_rsi_warmup; [lia|vm_compute; lia].
Defined.

Lemma nth_rolling {A : Type} (w : nat) (f : list Q -> A) (xs : list Q) (i : nat) :
  (i < List.length xs)%nat ->
  nth i (rolling w f xs) None
  = if Nat.ltb (S i) w then None else Some (f (window_at w i xs)).
Proof.
  intros Hi. apply nth_of_nth_error. unfold rolling.
  rewrite nth_error_map, nth_error_seq.
  destruct (Nat.ltb_spec i (List.length xs)); [reflexivity|lia].
Qed.

Lemma length_rolling {A : Type} (w : nat) (f : list Q -> A) (xs : list Q) :
  List.length (rolling w f xs) = List.length xs.
Proof. unfold rolling. rewrite length_map, length_seq. reflexivity. Qed.

Lemma nth_zip_with_opt_lift2 (f : R -> R -> R) (xs ys : list (option R)) (i : nat) :
  List.length xs = List.length ys ->
  nth i (zip_with (opt_lift2 f) xs ys) None = opt_lift2 f (nth i xs None) (nth i ys None).
Proof.
  revert ys i; induction xs as [|x xs IH]; intros [|y ys] [|i] H; simpl in *;
    try lia; auto.
Qed.

(** X11: the three Bollinger bands and the volume SMA are NaN exactly
    at the first 19 rows of a frame and defined from row 19 on. *)
Theorem bollinger_volume_sma_warmup (df : list OHLCVCandle) (i : nat) :
  (i < List.length df)%nat ->
  (nth i (bb_upper (calculate_bollinger_bands df)) None = None <-> (i < 19)%nat) /\
  (nth i (bb_middle (calculate_bollinger_bands df)) None = None <-> (i < 19)%nat) /\
  (nth i (bb_lower (calculate_bollinger_bands df)) None = None <-> (i < 19)%nat) /\
  (nth i (calculate_volume_sma df) None = None <-> (i < 19)%nat).
Proof.
  intros Hi.
  assert (Hc : (i < List.length (map close df))%nat) by (rewrite length_map; exact Hi).
  assert (Hv : (i < List.length (map volume df))%nat) by (rewrite length_map; exact Hi).
  unfold calculate_bollinger_bands, calculate_bollinger_bands_with, calculate_volume_sma,
    rolling_mean_R, rolling_std; simpl bb_upper; simpl bb_middle; simpl bb_lower.
  rewrite !nth_zip_with_opt_lift2 by (rewrite !length_rolling; reflexivity).
  rewrite !nth_rolling by assumption.
  destruct (Nat.ltb_spec (S i) 20); simpl;
    repeat split; intros; try discriminate; try reflexivity; lia.
Qed.

Lemma bollinger_volume_sma_warmup_witness :
  (19 < List.length sixty_candles)%nat /\
  (nth 19 (bb_upper (calculate_bollinger_bands sixty_candles)) None = None <-> (19 < 19)%nat) /\
  (nth 19 (bb_middle (calculate_bollinger_bands sixty_candles)) None = None <-> (19 < 19)%nat) /\
  (nth 19 (bb_lower (calculate_bollinger_bands sixty_candles)) None = None <-> (19 < 19)%nat) /\
  (nth 19 (calculate_volume_sma sixty_candles) None = None <-> (19 < 19)%nat).
Proof.
  split; [vm_compute; lia|].
  apply bollinger_volume_sma_warmup. vm_compute; lia.
Defined.


Definition opt_zero (o : option Q) : Prop :=
  match o with Some v => v == 0 | None => True end.

Lemma ewm_run_zero (alpha prev : Q) (xs : list Q) :
  prev == 0 -> Forall (fun x => x == 0) xs -> Forall (fun y => y == 0) (ewm_run alpha prev xs).
Proof.
  revert prev; induction xs as [|x xs IH]; intros prev Hp Hxs; simpl; [constructor|].
  inversion Hxs as [|x' l' Hx Hxs']; subst.
  assert (Hy : (1 - alpha) * prev + alpha * x == 0) by (rewrite Hp, Hx; ring).
  constructor; [exact Hy|]. apply IH; assumption.
Qed.

Lemma ewm_mean_zero (alpha : Q) (m : nat) (xs : list Q) :
  Forall (fun x => x == 0) xs -> Forall opt_zero (ewm_mean alpha m xs).
Proof.
  intros Hxs. unfold ewm_mean.
  assert (Hy : Forall (fun y => y == 0) (ewm_noadjust alpha xs)).
  { destruct xs as [|x xs]; simpl; [constructor|]. inversion Hxs; subst.
    constructor; [assumption|]. apply ewm_run_zero; assumption. }
  generalize 0%nat. induction Hy as [|y ys Hy0 _ IH]; intros k; simpl; constructor; auto.
  destruct (Nat.ltb (S k) m); simpl; auto.
Qed.

Lemma diff_run_nonneg (prev : Q) (xs : list Q) :
  nondecreasing_b (prev :: xs) = true ->
  Forall (fun o => match o with Some v => 0 <= v | None => True end) (diff_run prev xs).
Proof.
  revert prev; induction xs as [|x xs IH]; intros prev H; simpl; [constructor|].
  simpl in H. apply andb_prop in H as [Hx H]. apply Qle_bool_iff in Hx.
  constructor; [qlra|]. apply IH. exact H.
Qed.

Lemma down_direction_zero (o : option Q) :
  match o with Some v => 0 <= v | None => True end -> down_direction o == 0.
Proof.
  destruct o as [v|]; simpl; intros H; [|reflexivity].
  destruct (Qlt_bool v 0) eqn:E; [apply Qlt_bool_iff in E; qlra|reflexivity].
Qed.

Lemma ta_rsi_emadn_zero (xs : list Q) (window : nat) :
  nondecreasing_b xs = true -> Forall opt_zero (ta_rsi_emadn xs window).
Proof.
  intros H. apply ewm_mean_zero. unfold series_diff.
  destruct xs as [|x xs]; simpl; [constructor|].
  constructor; [reflexivity|].
  apply Forall_map. eapply Forall_impl; [|apply diff_run_nonneg; exact H].
  intros o Ho. apply down_direction_zero. exact Ho.
Qed.

Lemma calculate_rsi_nondecreasing_100 (df : list OHLCVCandle) (period i : nat) (r : Q) :
  nondecreasing_b (map close df) = true ->
  nth i (calculate_rsi df period) None = Some r -> r = 100.
Proof.
  intros Hnd Hr. apply nth_Some_nth_error in Hr.
  unfold calculate_rsi, ta_rsi in Hr.
  apply nth_error_zip_with in Hr as [up [dn [Hup [Hdn Hv]]]].
  pose proof (Forall_nth_error_opt _ _ _ _ (ta_rsi_emadn_zero _ period Hnd) Hdn) as Hz.
  destruct dn as [d|]; [|discriminate].
  simpl in Hz. rewrite rsi_value_zero_loss in Hv by exact Hz.
  injection Hv as <-. reflexivity.
Qed.

(** X12: when the sorted closes never decrease, every defined RSI
    value, for any window, is 100 (no loss, so the down-move average is zero). *)
Theorem calculate_rsi_rising_closes (candles : list OHLCVCandle) (period i : nat) (r : Q) :
  nondecreasing_b (map close (candles_to_dataframe candles)) = true ->
  nth i (calculate_rsi (candles_to_dataframe candles) period) None = Some r ->
  r = 100.
Proof. apply calculate_rsi_nondecreasing_100. Qed.

Lemma calculate_rsi_rising_closes_witness :
  exists r,
    nondecreasing_b (map close (candles_to_dataframe uptrend_candles)) = true /\
    nth 20 (calculate_rsi (candles_to_dataframe uptrend_candles) 14) None = Some r /\
    r = 100.
Proof.
  destruct (nth 20 (calculate_rsi (candles_to_dataframe uptrend_candles) 14) None)
    as [r|] eqn:Hr; [|vm_compute in Hr; discriminate].
  assert (Hnd : nondecreasing_b (map close (candles_to_dataframe uptrend_candles)) = true)
    by (vm_compute; reflexivity).
  exists r. split; [exact Hnd|split; [reflexivity|]].
  apply (calculate_rsi_rising_closes uptrend_candles 14 20 r Hnd Hr).
Defined.


Lemma dict_get_dict_set (k k' : string) (v : pyval) (d : dict) :
  dict_get k (dict_set k' v d) = if String.eqb k k' then Some v else dict_get k d.
Proof.
  induction d as [|[k0 v0] d IH]; simpl.
  - reflexivity.
  - destruct (String.eqb_spec k' k0) as [->|Hne]; simpl.
    + destruct (String.eqb k k0); reflexivity.
    + rewrite IH. destruct (String.eqb_spec k k'), (String.eqb_spec k k0);
        try reflexivity; congruence.
Qed.

(** What [apply_indicator] does to the record at index [i]. *)
Definition record_step (df : list OHLCVCandle) (i : nat) (d : dict) (name : string) : dict :=
  if String.eqb name "ema_20" then
    dict_set "ema_20" (to_pyval (nth i (Qseries_to_R (calculate_ema df 20)) None)) d
  else if String.eqb name "ema_50" then
    dict_set "ema_50" (to_pyval (nth i (Qseries_to_R (calculate_ema df 50)) None)) d
  else if String.eqb name "ema_200" then
    dict_set "ema_200" (to_pyval (nth i (Qseries_to_R (calculate_ema df 200)) None)) d
  else if String.eqb name "rsi_14" then
    dict_set "rsi_14" (to_pyval (nth i (Qseries_to_R (calculate_rsi df 14)) None)) d
  else if String.eqb name "bollinger_bands" then
    let bb := calculate_bollinger_bands df in
    dict_set "bb_lower" (to_pyval (nth i (bb_lower bb) None))
      (dict_set "bb_middle" (to_pyval (nth i (bb_middle bb) None))
         (dict_set "bb_upper" (to_pyval (nth i (bb_upper bb) None)) d))
  else if String.eqb name "volume_sma" then
    dict_set "volume_sma" (to_pyval (nth i (calculate_volume_sma df) None)) d
  else d.

Lemma length_set_column (key : string) (values : list (option R)) (results : list dict) :
  List.length (set_column key values results) = List.length results.
Proof.
  revert results; induction values as [|v vs IH]; intros [|r rs]; simpl; auto.
Qed.

Lemma nth_set_column (key : string) (values : list (option R)) (results : list dict) (i : nat) :
  (i < List.length values)%nat -> (i < List.length results)%nat ->
  nth i (set_column key values results) []
  = dict_set key (to_pyval (nth i values None)) (nth i results []).
Proof.
  revert results i; induction values as [|v vs IH]; intros [|r rs] [|i] H1 H2;
    simpl in *; try lia; auto.
  apply IH; lia.
Qed.

Lemma length_set_bb_columns (up mid low : list (option R)) (results : list dict) :
  List.length (set_bb_columns up mid low results) = List.length results.
Proof.
  revert mid low results; induction up as [|u us IH];
    intros [|m ms] [|l ls] [|r rs]; simpl; auto.
Qed.

Lemma nth_set_bb_columns (up mid low : list (option R)) (results : list dict) (i : nat) :
  (i < List.length up)%nat -> (i < List.length mid)%nat -> (i < List.length low)%nat ->
  (i < List.length results)%nat ->
  nth i (set_bb_columns up mid low results) []
  = dict_set "bb_lower" (to_pyval (nth i low None))
      (dict_set "bb_middle" (to_pyval (nth i mid None))
         (dict_set "bb_upper" (to_pyval (nth i up None)) (nth i results []))).
Proof.
  revert mid low results i; induction up as [|u us IH];
    intros [|m ms] [|l ls] [|r rs] [|i] H1 H2 H3 H4; simpl in *; try lia; auto.
  apply IH; lia.
Qed.

Lemma length_apply_indicator (df : list OHLCVCandle) (results : list dict) (name : string) :
  List.length (apply_indicator df results name) = List.length results.
Proof.
  unfold apply_indicator.
  repeat match goal with
  | |- context [if String.eqb ?a ?b then _ else _] => destruct (String.eqb a b)
  end; rewrite ?length_set_column, ?length_set_bb_columns; reflexivity.
Qed.

Lemma length_bb (df : list OHLCVCandle) :
  List.length (bb_upper (calculate_bollinger_bands df)) = List.length df /\
  List.length (bb_middle (calculate_bollinger_bands df)) = List.length df /\
  List.length (bb_lower (calculate_bollinger_bands df)) = List.length df.
Proof.
  unfold calculate_bollinger_bands, calculate_bollinger_bands_with, rolling_mean_R, rolling_std;
    simpl bb_upper; simpl bb_middle; simpl bb_lower.
  rewrite !length_zip_with by (rewrite !length_rolling; reflexivity).
  rewrite !length_rolling, length_map. auto.
Qed.

Lemma length_Qseries_to_R (s : list (option Q)) :
  List.length (Qseries_to_R s) = List.length s.
Proof. unfold Qseries_to_R. apply length_map. Qed.

Lemma nth_apply_indicator (df : list OHLCVCandle) (results : list dict) (name : string) (i : nat) :
  (i < List.length df)%nat -> (i < List.length results)%nat ->
  nth i (apply_indicator df results name) [] = record_step df i (nth i results []) name.
Proof.
  intros Hi Hr. destruct (length_bb df) as [Hu [Hm Hl]].
  unfold apply_indicator, record_step.
  repeat match goal with
  | |- context [if String.eqb ?a ?b then _ else _] => destruct (String.eqb a b)
  end; try reflexivity;
  first [ apply nth_set_bb_columns; lia
        | apply nth_set_column;
          rewrite ?length_Qseries_to_R, ?length_calculate_ema, ?length_calculate_rsi;
          unfold calculate_volume_sma, rolling_mean_R;
          rewrite ?length_rolling, ?length_map; lia ].
Qed.

Lemma nth_fold_apply_indicator (df : list OHLCVCandle) (names : list string)
  (results : list dict) (i : nat) :
  (i < List.length df)%nat -> (i < List.length results)%nat ->
  nth i (fold_left (apply_indicator df) names results) []
  = fold_left (record_step df i) names (nth i results []).
Proof.
  revert results; induction names as [|n names IH]; intros results Hi Hr; simpl; auto.
  rewrite IH by (rewrite ?length_apply_indicator; lia).
  rewrite nth_apply_indicator by assumption. reflexivity.
Qed.

Ltac cases_eqb x :=
  repeat match goal with
  | |- context [String.eqb x ?s] =>
      let E := fresh "E" in destruct (String.eqb_spec x s) as [E|E]; [subst x|]
  end.

Lemma dict_get_record_step (df : list OHLCVCandle) (i : nat) (d : dict) (name k : string) :
  dict_get k (record_step df i d name)
  = match key_indicator k with
    | Some n => if String.eqb n name then Some (to_pyval (nth i (key_column df k) None))
                else dict_get k d
    | None => dict_get k d
    end.
Proof.
  unfold record_step. cases_eqb name;
    rewrite ?dict_get_dict_set; unfold key_indicator, key_column; cases_eqb k;
    try reflexivity;
    repeat match goal with
    | |- context [String.eqb ?a name] =>
        let E := fresh "E" in destruct (String.eqb_spec a name) as [E|E];
        [subst name; congruence|]
    end; reflexivity.
Qed.

Lemma dict_get_fold_record_step (df : list OHLCVCandle) (i : nat) (names : list string)
  (d : dict) (k : string) :
  dict_get k (fold_left (record_step df i) names d)
  = match key_indicator k with
    | Some n => if existsb (String.eqb n) names
                then Some (to_pyval (nth i (key_column df k) None))
                else dict_get k d
    | None => dict_get k d
    end.
Proof.
  revert d; induction names as [|name names IH]; intros d; simpl.
  - destruct (key_indicator k); reflexivity.
  - rewrite IH, dict_get_record_step.
    destruct (key_indicator k) as [n|]; [|reflexivity].
    destruct (String.eqb n name), (existsb (String.eqb n) names); reflexivity.
Qed.

Lemma calculate_indicators_lookup_eq (candles : list OHLCVCandle) (names : list string)
  (i : nat) (k : string) :
  (i < List.length candles)%nat -> k <> "timestamp"%string ->
  dict_get k (nth i (calculate_indicators candles names) [])
  = match key_indicator k with
    | Some n => if existsb (String.eqb n) names
                then Some (to_pyval (nth i (key_column (candles_to_dataframe candles) k) None))
                else None
    | None => None
    end.
Proof.
  intros Hi Hk. destruct candles as [|c cs]; [simpl in Hi; lia|].
  unfold calculate_indicators.
  set (df := candles_to_dataframe (c :: cs)).
  assert (Hlen : List.length df = List.length (c :: cs)).
  { unfold df. rewrite candles_to_dataframe_sort.
    apply Permutation_length, sort_values_timestamp_perm. }
  rewrite nth_fold_apply_indicator by (rewrite ?length_map; lia).
  rewrite dict_get_fold_record_step.
  assert (H0 : dict_get k (nth i (map (fun row => [("timestamp"%string, VInt (timestamp row))]) df) [])
               = None).
  { set (f := fun row : OHLCVCandle => [("timestamp"%string, VInt (timestamp row))]).
    rewrite (nth_indep _ [] (f dummy_candle)) by (rewrite length_map; lia).
    rewrite map_nth. unfold f. simpl. apply String.eqb_neq in Hk. rewrite Hk. reflexivity. }
  destruct (key_indicator k); [destruct (existsb _ names)|]; [reflexivity|exact H0|exact H0].
Qed.

(** X13: for [i < len(candles)] and any key other than ["timestamp"],
    record [i] of [calculate_indicators] holds the key exactly when the
    indicator that writes it was requested, and then holds the value of
    that indicator's column at row [i] of the sorted frame (NaN as
    [None]); keys of no indicator are never present. *)
Theorem calculate_indicators_lookup (candles : list OHLCVCandle) (names : list string)
  (i : nat) (k : string) :
  (i < List.length candles)%nat -> k <> "timestamp"%string ->
  dict_get k (nth i (calculate_indicators candles names) [])
  = match key_indicator k with
    | Some n => if existsb (String.eqb n) names
                then Some (to_pyval (nth i (key_column (candles_to_dataframe candles) k) None))
                else None
    | None => None
    end.
Proof. apply calculate_indicators_lookup_eq. Qed.

Lemma calculate_indicators_lookup_witness :
  (0 < List.length sixty_candles)%nat /\ "bb_upper"%string <> "timestamp"%string /\
  dict_get "bb_upper" (nth 0 (calculate_indicators sixty_candles ["bollinger_bands"%string]) [])
  = match key_indicator "bb_upper" with
    | Some n => if existsb (String.eqb n) ["bollinger_bands"%string]
                then Some (to_pyval (nth 0 (key_column (candles_to_dataframe sixty_candles) "bb_upper") None))
                else None
    | None => None
    end.
Proof.
  split; [vm_compute; lia|split; [discriminate|]].
  apply calculate_indicators_lookup; [vm_compute; lia|discriminate].
Defined.

Lemma existsb_eqb_iff (n : string) (names : list string) :
  existsb (String.eqb n) names = true <-> In n names.
Proof.
  rewrite existsb_exists. split.
  - intros [x [Hx E]]. apply String.eqb_eq in E. subst. exact Hx.
  - intros H. exists n. split; [exact H|apply String.eqb_refl].
Qed.

Lemma dict_get_timestamp_nth (candles : list OHLCVCandle) (names : list string) (i : nat) :
  dict_get "timestamp" (nth i (calculate_indicators candles names) [])
  = nth i (map (fun c => Some (VInt (timestamp c))) (candles_to_dataframe candles)) None.
Proof.
  pose proof (calculate_indicators_timestamps candles names) as H.
  apply has_timestamp_get in H. rewrite map_map in H.
  rewrite <- (map_nth (dict_get "timestamp") (calculate_indicators candles names) [] i).
  rewrite H. reflexivity.
Qed.

(** X14: [calculate_indicators] depends only on the set of requested
    indicator names: reordering or repeating names gives the same number
    of records and the same value for every key of every record. *)
Theorem calculate_indicators_names_as_set (candles : list OHLCVCandle)
  (names names' : list string) :
  (forall n, In n names <-> In n names') ->
  List.length (calculate_indicators candles names)
  = List.length (calculate_indicators candles names') /\
  forall i k, dict_get k (nth i (calculate_indicators candles names) [])
              = dict_get k (nth i (calculate_indicators candles names') []).
Proof.
  intros Hset.
  assert (Hlen : forall ns, List.length (calculate_indicators candles ns) = List.length candles).
  { intros ns. pose proof (calculate_indicators_timestamps candles ns) as H.
    apply Forall2_length in H. rewrite <- H, length_map, candles_to_dataframe_sort.
    apply Permutation_length, sort_values_timestamp_perm. }
  split; [rewrite !Hlen; reflexivity|]. intros i k.
  destruct (String.eqb_spec k "timestamp") as [->|Hk].
  - rewrite !dict_get_timestamp_nth. reflexivity.
  - destruct (Nat.ltb_spec i (List.length candles)) as [Hi|Hi].
    + rewrite !calculate_indicators_lookup_eq by assumption.
      destruct (key_indicator k) as [n|]; [|reflexivity].
      destruct (existsb (String.eqb n) names) eqn:E1, (existsb (String.eqb n) names') eqn:E2;
        try reflexivity; exfalso.
      * apply existsb_eqb_iff, Hset, existsb_eqb_iff in E1. congruence.
      * apply existsb_eqb_iff, Hset, existsb_eqb_iff in E2. congruence.
    + rewrite !nth_overflow by (rewrite Hlen; lia). reflexivity.
Qed.

Lemma calculate_indicators_names_as_set_witness :
  (forall n, In n ["ema_20"; "rsi_14"]%string <-> In n ["rsi_14"; "ema_20"; "ema_20"]%string) /\
  List.length (calculate_indicators sixty_candles ["ema_20"; "rsi_14"]%string)
  = List.length (calculate_indicators sixty_candles ["rsi_14"; "ema_20"; "ema_20"]%string) /\
  forall i k, dict_get k (nth i (calculate_indicators sixty_candles ["ema_20"; "rsi_14"]%string) [])
              = dict_get k (nth i (calculate_indicators sixty_candles ["rsi_14"; "ema_20"; "ema_20"]%string) []).
Proof.
  assert (H : forall n, In n ["ema_20"; "rsi_14"]%string <-> In n ["rsi_14"; "ema_20"; "ema_20"]%string)
    by (intros n; simpl; tauto).
  split; [exact H|]. apply calculate_indicators_names_as_set. exact H.
Defined.


Lemma Q_of_nat_S (n : nat) : Q_of_nat (S n) == Q_of_nat n + 1.
Proof. unfold Q_of_nat. rewrite Nat2Z.inj_succ, <- Z.add_1_r, inject_Z_plus. reflexivity. Qed.

Lemma Q_of_nat_pos (n : nat) : (0 < n)%nat -> 0 < Q_of_nat n.
Proof. intros H. unfold Q_of_nat, Qlt. simpl. lia. Qed.

Lemma sumQ_bounds (xs : list Q) (lo hi : Q) :
  Forall (fun x => lo <= x <= hi) xs ->
  Q_of_nat (List.length xs) * lo <= sumQ xs <= Q_of_nat (List.length xs) * hi.
Proof.
  induction 1 as [|x xs Hx _ IH]; simpl.
  - change (Q_of_nat 0) with 0. split; rewrite Qmult_0_l; apply Qle_refl.
  - rewrite Q_of_nat_S. destruct Hx, IH. split; qlra.
Qed.

Lemma meanQ_bounds (xs : list Q) (lo hi : Q) :
  xs <> [] -> Forall (fun x => lo <= x <= hi) xs -> lo <= meanQ xs <= hi.
Proof.
  intros Hne Hf. destruct (sumQ_bounds xs lo hi Hf) as [H1 H2].
  assert (Hn : 0 < Q_of_nat (List.length xs)).
  { apply Q_of_nat_pos. destruct xs; [congruence|simpl; lia]. }
  unfold meanQ. split.
  - apply Qle_shift_div_l; [exact Hn|]. rewrite Qmult_comm. exact H1.
  - apply Qle_shift_div_r; [exact Hn|]. rewrite Qmult_comm. exact H2.
Qed.

Lemma sumQ_nonneg (ys : list Q) : Forall (fun y => 0 <= y) ys -> 0 <= sumQ ys.
Proof. induction 1; simpl; qlra. Qed.

Lemma sumQ_nonneg_zero (ys : list Q) :
  Forall (fun y => 0 <= y) ys -> sumQ ys == 0 -> Forall (fun y => y == 0) ys.
Proof.
  induction 1 as [|y ys Hy Hys IH]; simpl; intros Hs; constructor.
  - pose proof (sumQ_nonneg ys Hys). qlra.
  - apply IH. pose proof (sumQ_nonneg ys Hys). qlra.
Qed.

Lemma sq_nonneg (x : Q) : 0 <= x * x.
Proof. destruct x as [a b]. unfold Qle, Qmult. simpl. nia. Qed.

Lemma var_pop_nonneg (xs : list Q) : 0 <= var_pop xs.
Proof.
  unfold var_pop. destruct xs as [|x xs]; [simpl; unfold Qle; simpl; lia|].
  apply Qle_shift_div_l; [apply Q_of_nat_pos; simpl; lia|].
  rewrite Qmult_0_l. apply sumQ_nonneg.
  apply Forall_forall. intros y Hy. apply in_map_iff in Hy as [z [<- _]]. apply sq_nonneg.
Qed.

Lemma var_pop_zero (xs : list Q) :
  xs <> [] -> var_pop xs == 0 -> Forall (fun x => x == meanQ xs) xs.
Proof.
  intros Hne Hv. unfold var_pop in Hv.
  set (m := meanQ xs) in *.
  assert (Hn : 0 < Q_of_nat (List.length xs)).
  { apply Q_of_nat_pos. destruct xs; [congruence|simpl; lia]. }
  assert (Hs : sumQ (map (fun x => (x - m) * (x - m)) xs) == 0).
  { assert (Hnz : ~ Q_of_nat (List.length xs) == 0) by (intro E; rewrite E in Hn; discriminate).
    setoid_replace (sumQ (map (fun x => (x - m) * (x - m)) xs))
      with ((sumQ (map (fun x => (x - m) * (x - m)) xs) / Q_of_nat (List.length xs))
            * Q_of_nat (List.length xs)) by (field; exact Hnz).
    rewrite Hv. ring. }
  apply sumQ_nonneg_zero in Hs.
  - apply Forall_forall. intros x Hx.
    rewrite Forall_forall in Hs. specialize (Hs _ (in_map _ _ _ Hx)). simpl in Hs.
    apply Qmult_integral in Hs. destruct Hs; qlra.
  - apply Forall_forall. intros y Hy. apply in_map_iff in Hy as [z [<- _]]. apply sq_nonneg.
Qed.

Lemma var_pop_const (xs : list Q) (x0 : Q) :
  Forall (fun x => x == x0) xs -> var_pop xs == 0.
Proof.
  intros Hf. destruct xs as [|x xs]; [reflexivity|].
  assert (Hm : meanQ (x :: xs) == x0).
  { assert (H : x0 <= meanQ (x :: xs) <= x0).
    { apply meanQ_bounds; [discriminate|].
      eapply Forall_impl; [|exact Hf]. intros a Ha; simpl in Ha. split; qlra. }
    qlra. }
  unfold var_pop.
  assert (Hs : sumQ (map (fun y => (y - meanQ (x :: xs)) * (y - meanQ (x :: xs))) (x :: xs)) == 0).
  { assert (Hb : Forall (fun y => 0 <= y <= 0)
                   (map (fun y => (y - meanQ (x :: xs)) * (y - meanQ (x :: xs))) (x :: xs))).
    { apply Forall_forall. intros y Hy. apply in_map_iff in Hy as [z [<- Hz]].
      rewrite Forall_forall in Hf. specialize (Hf z Hz). simpl in Hf.
      rewrite Hm, Hf. split; qlra. }
    apply sumQ_bounds in Hb. destruct Hb. qlra. }
  rewrite Hs. reflexivity.
Qed.

Lemma sqrt_Q2R_zero (v : Q) : 0 <= v -> (sqrt (Q2R v) = 0%R <-> v == 0).
Proof.
  intros Hv. split.
  - intros H. apply sqrt_eq_0 in H.
    + apply eqR_Qeq. rewrite H, Q2R_zero. reflexivity.
    + rewrite <- Q2R_zero. apply Qle_Rle. exact Hv.
  - intros H. rewrite (Qeq_eqR _ _ H), Q2R_zero. apply sqrt_0.
Qed.

Lemma window_at_map_20 {A : Type} (f : A -> Q) (df : list A) (i : nat) :
  (19 <= i)%nat ->
  window_at 20 i (map f df) = map f (firstn 20 (skipn (i - 19) df)).
Proof.
  intros H. unfold window_at. rewrite skipn_map, firstn_map.
  replace (S i - 20)%nat with (i - 19)%nat by lia. reflexivity.
Qed.

Lemma length_window_20 {A : Type} (df : list A) (i : nat) :
  (19 <= i)%nat -> (i < List.length df)%nat ->
  List.length (firstn 20 (skipn (i - 19) df)) = 20%nat.
Proof. intros H1 H2. rewrite length_firstn, length_skipn. lia. Qed.

Lemma nth_rolling_20 {A : Type} (f : list Q -> A) (xs : list Q) (i : nat) :
  (19 <= i)%nat -> (i < List.length xs)%nat ->
  nth i (rolling 20 f xs) None = Some (f (window_at 20 i xs)).
Proof.
  intros H1 H2. rewrite nth_rolling by exact H2.
  destruct (Nat.ltb_spec (S i) 20); [lia|reflexivity].
Qed.

(** X15: at every row [i >= 19] of a frame the three Bollinger bands
    are defined; the middle band is the mean of the closes of rows
    [i-19..i]; the bands are symmetric ([upper - middle = middle - lower])
    and ordered ([lower <= middle <= upper]); and upper and lower coincide
    exactly when the 20 closes of the window are all equal. *)
Theorem calculate_bollinger_bands_shape (df : list OHLCVCandle) (i : nat) :
  (19 <= i)%nat -> (i < List.length df)%nat ->
  exists u m l,
    nth i (bb_upper (calculate_bollinger_bands df)) None = Some u /\
    nth i (bb_middle (calculate_bollinger_bands df)) None = Some m /\
    nth i (bb_lower (calculate_bollinger_bands df)) None = Some l /\
    m = Q2R (meanQ (map close (firstn 20 (skipn (i - 19) df)))) /\
    (u - m = m - l)%R /\ (l <= m <= u)%R /\
    (u = l <-> forall c c', In c (firstn 20 (skipn (i - 19) df)) ->
                            In c' (firstn 20 (skipn (i - 19) df)) -> close c == close c').
Proof.
  intros H1 H2.
  assert (Hc : (i < List.length (map close df))%nat) by (rewrite length_map; exact H2).
  set (w := firstn 20 (skipn (i - 19) df)).
  set (s := sqrt (Q2R (var_pop (map close w)))).
  unfold calculate_bollinger_bands, calculate_bollinger_bands_with, rolling_mean_R, rolling_std;
    simpl bb_upper; simpl bb_middle; simpl bb_lower.
  rewrite !nth_zip_with_opt_lift2 by (rewrite !length_rolling; reflexivity).
  rewrite !nth_rolling_20 by assumption.
  rewrite !window_at_map_20 by exact H1. fold w. fold s. simpl.
  do 3 eexists. split; [reflexivity|split; [reflexivity|split; [reflexivity|]]].
  assert (Hs : (0 <= s)%R) by apply sqrt_pos.
  split; [reflexivity|split; [simpl IZR; lra|split; [simpl IZR; lra|]]].
  assert (Hw : map close w <> []).
  { pose proof (length_window_20 df i H1 H2) as L. fold w in L.
    destruct w; [discriminate|discriminate]. }
  simpl IZR. split.
  - intros Heq. assert (Hs0 : s = 0%R) by lra. unfold s in Hs0.
    apply sqrt_Q2R_zero in Hs0; [|apply var_pop_nonneg].
    apply var_pop_zero in Hs0; [|exact Hw]. rewrite Forall_forall in Hs0.
    intros c c' Hc1 Hc2.
    pose proof (Hs0 _ (in_map close _ _ Hc1)). pose proof (Hs0 _ (in_map close _ _ Hc2)).
    qlra.
  - intros Hall.
    assert (Hs0 : s = 0%R).
    { unfold s. apply sqrt_Q2R_zero; [apply var_pop_nonneg|].
      destruct w as [|c0 cs] eqn:Ew; [simpl in Hw; congruence|].
      apply (var_pop_const _ (close c0)).
      apply Forall_forall. intros x Hx. apply in_map_iff in Hx as [c [<- Hc']].
      apply Hall; [exact Hc'|left; reflexivity]. }
    rewrite Hs0. lra.
Qed.

Lemma calculate_bollinger_bands_shape_witness :
  (19 <= 19)%nat /\ (19 < List.length sixty_candles)%nat /\
  exists u m l,
    nth 19 (bb_upper (calculate_bollinger_bands sixty_candles)) None = Some u /\
    nth 19 (bb_middle (calculate_bollinger_bands sixty_candles)) None = Some m /\
    nth 19 (bb_lower (calculate_bollinger_bands sixty_candles)) None = Some l /\
    m = Q2R (meanQ (map close (firstn 20 (skipn (19 - 19) sixty_candles)))) /\
    (u - m = m - l)%R /\ (l <= m <= u)%R /\
    (u = l <-> forall c c', In c (firstn 20 (skipn (19 - 19) sixty_candles)) ->
                            In c' (firstn 20 (skipn (19 - 19) sixty_candles)) -> close c == close c').
Proof.
  split; [lia|split; [vm_compute; lia|]].
  apply calculate_bollinger_bands_shape; [lia|vm_compute; lia].
Defined.

(** X16: at every row [i >= 19] the volume SMA is defined, is the mean
    of the volumes of rows [i-19..i], and lies between any bounds of
    those 20 volumes. *)
Theorem calculate_volume_sma_within_window (df : list OHLCVCandle) (i : nat) (lo hi : Q) :
  (19 <= i)%nat -> (i < List.length df)%nat ->
  Forall (fun c => lo <= volume c <= hi) (firstn 20 (skipn (i - 19) df)) ->
  exists v, nth i (calculate_volume_sma df) None = Some v /\
            v = Q2R (meanQ (map volume (firstn 20 (skipn (i - 19) df)))) /\
            (Q2R lo <= v <= Q2R hi)%R.
Proof.
  intros H1 H2 Hf.
  assert (Hv : (i < List.length (map volume df))%nat) by (rewrite length_map; exact H2).
  unfold calculate_volume_sma, rolling_mean_R.
  rewrite nth_rolling_20 by assumption. rewrite window_at_map_20 by exact H1.
  eexists. split; [reflexivity|split; [reflexivity|]].
  assert (Hb : lo <= meanQ (map volume (firstn 20 (skipn (i - 19) df))) <= hi).
  { apply meanQ_bounds.
    - pose proof (length_window_20 df i H1 H2) as L.
      destruct (firstn 20 (skipn (i - 19) df)); [discriminate|discriminate].
    - rewrite Forall_map. exact Hf. }
  destruct Hb as [Hl Hh]. split; apply Qle_Rle; assumption.
Qed.

Lemma calculate_volume_sma_within_window_witness :
  exists v,
    (19 <= 25)%nat /\ (25 < List.length sixty_candles)%nat /\
    Forall (fun c => 100 <= volume c <= 100) (firstn 20 (skipn (25 - 19) sixty_candles)) /\
    nth 25 (calculate_volume_sma sixty_candles) None = Some v /\
    v = Q2R (meanQ (map volume (firstn 20 (skipn (25 - 19) sixty_candles)))) /\
    (Q2R 100 <= v <= Q2R 100)%R.
Proof.
  assert (Hf : Forall (fun c => 100 <= volume c <= 100) (firstn 20 (skipn (25 - 19) sixty_candles))).
  { apply Forall_forall. intros c Hc. vm_compute in Hc.
    repeat (destruct Hc as [<-|Hc]; [split; apply Qle_refl|]); destruct Hc. }
  destruct (calculate_volume_sma_within_window sixty_candles 25 100 100) as [v Hv];
    [lia|vm_compute; lia|exact Hf|].
  exists v. split; [lia|split; [vm_compute; lia|split; [exact Hf|exact Hv]]].
Defined.


Lemma sorted_perm_unique (l1 l2 : list OHLCVCandle) :
  StronglySorted timestamp_le l1 -> StronglySorted timestamp_le l2 ->
  NoDup (map timestamp l1) -> Permutation l1 l2 -> l1 = l2.
Proof.
  revert l2; induction l1 as [|a l1 IH]; intros l2 H1 H2 Hnd Hp.
  - symmetry. apply Permutation_nil. exact Hp.
  - destruct l2 as [|b l2]; [apply Permutation_sym, Permutation_nil in Hp; discriminate|].
    apply StronglySorted_inv in H1 as [H1 Ha]. apply StronglySorted_inv in H2 as [H2 Hb].
    simpl in Hnd. apply NoDup_cons_iff in Hnd as [Hna Hnd].
    assert (Hab : a = b).
    { destruct (Permutation_in a Hp (or_introl eq_refl)) as [->|Hin2]; [reflexivity|].
      destruct (Permutation_in b (Permutation_sym Hp) (or_introl eq_refl)) as [<-|Hin1];
        [reflexivity|].
      rewrite Forall_forall in Ha, Hb.
      specialize (Ha b Hin1). specialize (Hb a Hin2). unfold timestamp_le in Ha, Hb.
      exfalso. apply Hna. replace (timestamp a) with (timestamp b) by lia.
      apply in_map. exact Hin1. }
    subst b. f_equal. apply IH; try assumption.
    apply Permutation_cons_inv in Hp. exact Hp.
Qed.

Lemma timestamp_le_trans : Transitive timestamp_le.
Proof. intros a b c. unfold timestamp_le. lia. Qed.

Lemma candles_to_dataframe_perm (candles candles' : list OHLCVCandle) :
  Permutation candles candles' -> NoDup (map timestamp candles) ->
  candles_to_dataframe candles = candles_to_dataframe candles'.
Proof.
  intros Hp Hnd. rewrite !candles_to_dataframe_sort.
  apply sorted_perm_unique.
  - apply Sorted_StronglySorted; [exact timestamp_le_trans|apply sort_values_timestamp_sorted].
  - apply Sorted_StronglySorted; [exact timestamp_le_trans|apply sort_values_timestamp_sorted].
  - eapply Permutation_NoDup; [|exact Hnd].
    apply Permutation_map, Permutation_sym, sort_values_timestamp_perm.
  - eapply perm_trans; [apply sort_values_timestamp_perm|].
    eapply perm_trans; [exact Hp|]. apply Permutation_sym, sort_values_timestamp_perm.
Qed.

(** X17: with distinct timestamps, the order in which the candles are
    given does not matter: any permutation yields the same indicator
    records and the same signal result. *)
Theorem analytics_input_order_independent (candles candles' : list OHLCVCandle)
  (names : list string) (symbol sid : string) :
  Permutation candles candles' -> NoDup (map timestamp candles) ->
  calculate_indicators candles names = calculate_indicators candles' names /\
  generate_signals candles symbol sid = generate_signals candles' symbol sid.
Proof.
  intros Hp Hnd.
  pose proof (candles_to_dataframe_perm candles candles' Hp Hnd) as Hdf.
  pose proof (Permutation_length Hp) as Hlen.
  split.
  - destruct candles as [|c cs], candles' as [|c' cs'].
    + reflexivity.
    + apply Permutation_nil in Hp. discriminate.
    + apply Permutation_sym, Permutation_nil in Hp. discriminate.
    + unfold calculate_indicators. rewrite Hdf. reflexivity.
  - unfold generate_signals, generate_ema_crossover_rsi_signals. rewrite Hlen, Hdf. reflexivity.
Qed.

Lemma analytics_input_order_independent_witness :
  Permutation (rev sixty_candles) sixty_candles /\
  NoDup (map timestamp (rev sixty_candles)) /\
  calculate_indicators (rev sixty_candles) ["ema_20"; "bollinger_bands"]%string
  = calculate_indicators sixty_candles ["ema_20"; "bollinger_bands"]%string /\
  generate_signals (rev sixty_candles) "BTC/USDT" "ema_crossover_rsi"
  = generate_signals sixty_candles "BTC/USDT" "ema_crossover_rsi".
Proof.
  assert (Hp : Permutation (rev sixty_candles) sixty_candles)
    by (apply Permutation_sym, Permutation_rev).
  assert (Hnd : NoDup (map timestamp (rev sixty_candles))).
  { vm_compute.
    repeat (apply NoDup_cons; [intros H; repeat (destruct H as [H|H]; [discriminate|]); exact H|]).
    apply NoDup_nil. }
  split; [exact Hp|split; [exact Hnd|]].
  apply analytics_input_order_independent; assumption.
Defined.
